(** * DocDash: rule compilation, validation and remediation

    A shallow embedding of
      - [DocDash/validation/generator.py]  (class ValidationCodeGenerator)
      - [DocDash/fixer/recommender.py]     (class RemediationRecommender)
      - the stages of [DocDash/profiling/data.py] that chain them
      - the rule producers of [DocDash/rule/generator.py].

    [generate_pandas_validation] builds the text of a Python module in two
    steps: a loop over the rule templates, which appends one block of text
    for each template it compiles, and a closing
    [pandas_code_template.format(rules_definition=...)].  The loop is
    embedded as [compile_rule] (one iteration) and [emit_blocks] (the list
    [rules_code] when the loop ends); a block is kept as the strings
    spliced into it.  The closing [format] works on a template whose own
    braces, those of the [results] dict, are not doubled: it takes the
    text after the first of them for a field name and raises KeyError on
    every call ([format_template]).

    The executor [validate_data] is written inside that template
    (generator.py, lines 72 to 105).  It is embedded as the loop it is,
    over a list [validation_rules] of rules that carry a validation
    function each.  The functions the blocks would define are not
    embedded: the text of a block never becomes a module.

    Strings are sequences of code points below 256. *)

From Stdlib Require Import List String Ascii ZArith Bool Arith Lia.
Import ListNotations.
Open Scope string_scope.

Set Implicit Arguments.

(* ------------------------------------------------------------------ *)
(** ** Python string operations used by the source *)

Module PyStr.

(** [s.startswith(p)] *)
Fixpoint startswith (p s : string) : bool :=
  match p, s with
  | EmptyString, _ => true
  | String a p', String b s' => Ascii.eqb a b && startswith p' s'
  | String _ _, EmptyString => false
  end.

(** [sub in s] *)
Fixpoint contains (sub s : string) : bool :=
  match s with
  | EmptyString => startswith sub EmptyString
  | String _ s' => startswith sub s || contains sub s'
  end.

(** [s.split(sep)] for a non-empty [sep]: leftmost, non-overlapping
    occurrences.  [skip] counts the characters of a matched separator that
    are still to be dropped; the result is the piece being read and the
    pieces after it. *)
Fixpoint split_go (sep s : string) (skip : nat) : string * list string :=
  match s with
  | EmptyString => (EmptyString, [])
  | String c s' =>
      match skip with
      | S k => split_go sep s' k
      | O =>
          if startswith sep s
          then (EmptyString,
                let (p, ps) := split_go sep s' (String.length sep - 1) in
                p :: ps)
          else let (p, ps) := split_go sep s' 0 in (String c p, ps)
      end
  end.

Definition split (sep s : string) : list string :=
  let (p, ps) := split_go sep s 0 in p :: ps.

(** Characters removed by [s.strip()]: the code points [str.isspace]
    accepts. *)
Definition is_space (c : ascii) : bool :=
  let n := nat_of_ascii c in
  (((9 <=? n) && (n <=? 13)) || ((28 <=? n) && (n <=? 32))
   || (n =? 133) || (n =? 160))%nat.

Fixpoint lstrip (s : string) : string :=
  match s with
  | EmptyString => EmptyString
  | String c s' => if is_space c then lstrip s' else s
  end.

Fixpoint rstrip (s : string) : string :=
  match s with
  | EmptyString => EmptyString
  | String c s' =>
      match rstrip s' with
      | EmptyString => if is_space c then EmptyString else String c EmptyString
      | r => String c r
      end
  end.

Definition strip (s : string) : string := rstrip (lstrip s).

(** [s[n:]] *)
Fixpoint drop (n : nat) (s : string) : string :=
  match n, s with
  | O, _ => s
  | S _, EmptyString => EmptyString
  | S k, String _ s' => drop k s'
  end.

End PyStr.

(** [l[i]] on the pieces of a split.  The source indexes position 1 only
    under the guard [sep in s], where the piece exists. *)
Definition item (l : list string) (i : nat) : string := nth i l EmptyString.

(* ------------------------------------------------------------------ *)
(** ** Exceptions and results *)

(** A raised exception: its class and [str(e)]. *)
Inductive exn : Type := Exn (cls msg : string).

Definition str_of_exn (e : exn) : string := let (_, msg) := e in msg.

Definition KeyError (k : string) : exn := Exn "KeyError" ("'" ++ k ++ "'").
Definition TypeError (msg : string) : exn := Exn "TypeError" msg.

(** A computation that returns or raises. *)
Inductive result (A : Type) : Type :=
| Ok (a : A)
| Raise (e : exn).
Arguments Ok {A} a.
Arguments Raise {A} e.

Definition bind {A B : Type} (m : result A) (k : A -> result B) : result B :=
  match m with
  | Ok a => k a
  | Raise e => Raise e
  end.

Notation "x <- m ;; k" := (bind m (fun x => k))
  (at level 61, m at next level, right associativity).

Fixpoint mapM {A B : Type} (f : A -> result B) (l : list A) : result (list B) :=
  match l with
  | [] => Ok []
  | a :: l' => b <- f a ;; bs <- mapM f l' ;; Ok (b :: bs)
  end.

(* ------------------------------------------------------------------ *)
(** ** Python dicts: insertion-ordered, one entry per key *)

Section Dict.
Variable V : Type.

Definition dict : Type := list (string * V).

(** [d.get(k)] *)
Fixpoint dict_get (k : string) (d : dict) : option V :=
  match d with
  | [] => None
  | (k', v) :: d' => if String.eqb k k' then Some v else dict_get k d'
  end.

(** [d[k] = v]: an existing key keeps its position, a new key goes last. *)
Fixpoint dict_set (k : string) (v : V) (d : dict) : dict :=
  match d with
  | [] => [(k, v)]
  | (k', v') :: d' =>
      if String.eqb k k' then (k, v) :: d' else (k', v') :: dict_set k v d'
  end.

Definition keys (d : dict) : list string := map fst d.

End Dict.

(* ------------------------------------------------------------------ *)
(** ** Data model *)

(** A rule template is a dict read with [rule["rule_id"]] and
    [rule.get(key, default)]; an absent key is [None].  Values are taken at
    the types of the template schema. *)
Record RuleTemplate : Type := {
  t_rule_id : option string;
  t_type : option string;
  t_elements : option (list string);
  t_logic : option string;
  t_description : option string;
  t_severity : option string
}.

(** A cell of a DataFrame: a number, a string, or the missing value
    (NaN / None).  The synthesizer only copies cells into its prompt. *)
Inductive cell : Type :=
| CNum (z : Z)
| CStr (s : string)
| CNull.

(** A DataFrame: the row labels of its index and its named columns, each
    column holding one cell per row. *)
Record DataFrame : Type := {
  df_index : list Z;
  df_columns : dict (list cell)
}.

(** The body emitted for one rule, with the spliced strings as they are. *)
Inductive Check : Type :=
| RangeCheck (primary_element lower_bound upper_bound : string)
| CategoricalCheck (primary_element valid_values : string)
| NotNullCheck (primary_element : string)
| CrossFieldCheck (primary_element secondary_element : string).

(** One [validation_rules.append({...})] block of [rules_code]. *)
Record RuleDef : Type := {
  d_rule_id : string;
  d_description : string;
  d_severity : string;
  d_check : Check
}.

(** What a validation function returns: a dict with ["passed"] and,
    depending on the path, ["failed_records"] or ["error_message"]. *)
Record RuleResult : Type := {
  passed : bool;
  failed_records : option (list Z);
  error_message : option string
}.

(** An entry of [validation_rules], the list the executor iterates. *)
Record Rule : Type := {
  rule_id : string;
  description : string;
  severity : string;
  validation_function : DataFrame -> result RuleResult
}.

Record Summary : Type := {
  total_rules : nat;
  passed_rules : nat;
  failed_rules : nat;
  validation_timestamp : string
}.

Record RuleEntry : Type := {
  e_passed : bool;
  e_description : string;
  e_severity : string;
  e_failed_records : option (list Z);
  e_error_message : option string
}.

Record Results : Type := {
  summary : Summary;
  rule_results : dict RuleEntry
}.

(* ------------------------------------------------------------------ *)
(** ** generate_pandas_validation *)

Definition get {A : Type} (o : option A) (default : A) : A :=
  match o with
  | Some a => a
  | None => default
  end.

(** One iteration: [None] is a template for which no block is emitted. *)
Definition compile_rule (rule : RuleTemplate) : result (option RuleDef) :=
  match t_rule_id rule with
  | None => Raise (KeyError "rule_id")
  | Some rule_id =>
      let rule_type := get (t_type rule) "" in
      let elements := get (t_elements rule) [] in
      let logic := get (t_logic rule) "" in
      let description := get (t_description rule) "" in
      let severity := get (t_severity rule) "warning" in
      match elements with
      | [] => Ok None
      | primary_element :: _ =>
          let emit c := Ok (Some {| d_rule_id := rule_id;
                                    d_description := description;
                                    d_severity := severity;
                                    d_check := c |}) in
          if rule_type =? "range_check" then
            let lower_bound :=
              if PyStr.contains ">=" logic
              then PyStr.strip
                     (item (PyStr.split "AND" (item (PyStr.split ">=" logic) 1)) 0)
              else "float('-inf')" in
            let upper_bound :=
              if PyStr.contains "<=" logic
              then PyStr.strip (item (PyStr.split "<=" logic) 1)
              else "float('inf')" in
            emit (RangeCheck primary_element lower_bound upper_bound)
          else if rule_type =? "categorical_check" then
            let valid_values :=
              if PyStr.contains "IN" logic
              then PyStr.strip (item (PyStr.split "IN" logic) 1)
              else "[]" in
            emit (CategoricalCheck primary_element valid_values)
          else if rule_type =? "not_null_check" then
            emit (NotNullCheck primary_element)
          else if (rule_type =? "cross_field_check")
                  && (2 <=? List.length elements)%nat then
            emit (CrossFieldCheck primary_element (item elements 1))
          else Ok None
      end
  end.

(** The loop [for rule in rule_templates]: the blocks appended to
    [rules_code], in template order. *)
Fixpoint emit_blocks (rule_templates : list RuleTemplate)
  : result (list RuleDef) :=
  match rule_templates with
  | [] => Ok []
  | rule :: rest =>
      block <- compile_rule rule ;;
      rules_code <- emit_blocks rest ;;
      Ok (match block with
          | Some b => b :: rules_code
          | None => rules_code
          end)
  end.

(** Characters and integer literals used by the texts below. *)
Module Literal.

Definition dq : ascii := ascii_of_nat 34.
Definition sq : ascii := ascii_of_nat 39.
Definition backslash : ascii := ascii_of_nat 92.

Definition digit_of (c : ascii) : option Z :=
  let n := nat_of_ascii c in
  if ((48 <=? n) && (n <=? 57))%nat then Some (Z.of_nat (n - 48)) else None.

Fixpoint digits (s : string) (acc : Z) : option Z :=
  match s with
  | EmptyString => Some acc
  | String c s' =>
      match digit_of c with
      | Some d => digits s' (10 * acc + d)%Z
      | None => None
      end
  end.

(** A decimal literal: digits, with no leading zero before another digit. *)
Definition py_nat (s : string) : option Z :=
  match s with
  | EmptyString => None
  | String "0" (String _ _) => None
  | _ => digits s 0%Z
  end.

(** An integer literal, or one under a unary minus. *)
Definition py_int (s : string) : option Z :=
  match s with
  | String "-" s' => option_map Z.opp (py_nat s')
  | _ => py_nat s
  end.

End Literal.
Import Literal.

(** The exception of the closing [format].  [pandas_code_template] reads
    [results = {], a line break, eight spaces and ["summary": {]; the text
    between that first brace and the colon is taken for a field name, and
    no argument of that name is passed.  The message is [str(e)], the
    [repr] of the name. *)
Definition format_error : exn :=
  Exn "KeyError"
      ("'" ++ String backslash "n        "
           ++ String dq "summary" ++ String dq "'").

(** [pandas_code_template.format(rules_definition="\n".join(rules_code))]:
    the field [{rules_definition}] comes after the [results] dict in the
    template and is never reached. *)
Definition format_template (rules_code : list RuleDef) : result string :=
  Raise format_error.

Definition generate_pandas_validation (rule_templates : list RuleTemplate)
  : result string :=
  rules_code <- emit_blocks rule_templates ;;
  complete_code <- format_template rules_code ;;
  Ok complete_code.

Definition is_empty {A : Type} (l : list A) : bool :=
  match l with
  | [] => true
  | _ :: _ => false
  end.

(* ------------------------------------------------------------------ *)
(** ** validate_data: the executor written in [pandas_code_template] *)

Definition bump_total (s : Summary) : Summary :=
  {| total_rules := S (total_rules s);
     passed_rules := passed_rules s;
     failed_rules := failed_rules s;
     validation_timestamp := validation_timestamp s |}.

Definition bump_passed (s : Summary) : Summary :=
  {| total_rules := total_rules s;
     passed_rules := S (passed_rules s);
     failed_rules := failed_rules s;
     validation_timestamp := validation_timestamp s |}.

Definition bump_failed (s : Summary) : Summary :=
  {| total_rules := total_rules s;
     passed_rules := passed_rules s;
     failed_rules := S (failed_rules s);
     validation_timestamp := validation_timestamp s |}.

(** The body of [for rule in validation_rules]. *)
Definition run_rule (data : DataFrame) (results : Results) (rule : Rule)
  : Results :=
  let s := bump_total (summary results) in
  match validation_function rule data with
  | Ok rule_result =>
      if passed rule_result then
        {| summary := bump_passed s;
           rule_results :=
             dict_set (rule_id rule)
               {| e_passed := true;
                  e_description := description rule;
                  e_severity := severity rule;
                  e_failed_records := None;
                  e_error_message := None |}
               (rule_results results) |}
      else
        {| summary := bump_failed s;
           rule_results :=
             dict_set (rule_id rule)
               {| e_passed := false;
                  e_description := description rule;
                  e_severity := severity rule;
                  e_failed_records :=
                    Some (get (failed_records rule_result) []);
                  e_error_message :=
                    Some (get (error_message rule_result) "") |}
               (rule_results results) |}
  | Raise e =>
      {| summary := bump_failed s;
         rule_results :=
           dict_set (rule_id rule)
             {| e_passed := false;
                e_description := description rule;
                e_severity := severity rule;
                e_failed_records := None;
                e_error_message :=
                  Some ("Error executing rule: " ++ str_of_exn e) |}
             (rule_results results) |}
  end.

(** [now] is the reading of [datetime.now().isoformat()]. *)
Definition validate_data (now : string) (validation_rules : list Rule)
  (df : DataFrame) : Results :=
  let results := {| summary := {| total_rules := 0;
                                  passed_rules := 0;
                                  failed_rules := 0;
                                  validation_timestamp := now |};
                    rule_results := [] |} in
  let data := df in
  fold_left (run_rule data) validation_rules results.

Section Execution.

(** What the interpreter makes of [validation_code]: the text is written
    to a file and imported, and the module's [validate_data] is called on
    [data]; [now] is the reading of the clock during the call. *)
Variable import_and_validate : string -> string -> DataFrame -> result Results.

Definition execute_validation_on_data (now : string)
  (validation_code : string) (data : DataFrame) : result Results :=
  results <- import_and_validate now validation_code data ;;
  Ok results.

End Execution.

(* ------------------------------------------------------------------ *)
(** ** RemediationRecommender *)

(** A value decoded by [json.loads]. *)
#[warnings="-register-all"] Inductive json : Type :=
| JNull
| JBool (b : bool)
| JNum (z : Z)
| JStr (s : string)
| JArr (l : list json)
| JObj (o : list (string * json)).

(** Python truth value, as tested by [if v] and [not v]. *)
Definition truthy (v : json) : bool :=
  match v with
  | JNull => false
  | JBool b => b
  | JNum z => negb (z =? 0)%Z
  | JStr s => negb (s =? "")
  | JArr l => negb (is_empty l)
  | JObj o => negb (is_empty o)
  end.

Definition Plan : Type := dict json.

Record RemediationSummary : Type := {
  total_issues : nat;
  remediated_issues : nat;
  manual_review_issues : nat
}.

Record Recommendations : Type := {
  rec_summary : RemediationSummary;
  remediation_plans : dict Plan
}.

(** An element of [applied_remediations]. *)
Record AppliedRecord : Type := {
  a_rule_id : string;
  a_status : string;
  a_error : option string;
  a_description : option json
}.

(** [rule_details.get(rule_id, {})] when the id is absent. *)
Definition no_info : RuleTemplate :=
  {| t_rule_id := None; t_type := None; t_elements := None;
     t_logic := None; t_description := None; t_severity := None |}.

(** *** [data.loc[labels].to_dict(orient='records')] *)

Definition row_at (df : DataFrame) (i : nat) : dict cell :=
  map (fun kc => (fst kc, nth i (snd kc) CNull)) (df_columns df).

Fixpoint positions (label : Z) (index : list Z) (i : nat) : list nat :=
  match index with
  | [] => []
  | l :: index' =>
      if (l =? label)%Z then i :: positions label index' (S i)
      else positions label index' (S i)
  end.

Definition loc_label (df : DataFrame) (label : Z) : result (list (dict cell)) :=
  match positions label (df_index df) 0 with
  | [] => Raise (Exn "KeyError" "not in index")
  | ps => Ok (map (row_at df) ps)
  end.

Definition loc_records (df : DataFrame) (labels : list Z)
  : result (list (dict cell)) :=
  rows <- mapM (loc_label df) labels ;; Ok (List.concat rows).

(** *** The heap of DataFrame objects

    [data.copy()] makes a new object; a synthesized transformation works on
    the object it is handed, in place or by returning something else. *)

Definition loc : Type := nat.
Definition store : Type := list DataFrame.

Definition empty_frame : DataFrame := {| df_index := []; df_columns := [] |}.

Definition deref (st : store) (l : loc) : DataFrame := nth l st empty_frame.

Definition alloc (st : store) (d : DataFrame) : store * loc :=
  ((st ++ [d])%list, List.length st).

Fixpoint assign (st : store) (l : loc) (d : DataFrame) : store :=
  match st, l with
  | [], _ => []
  | _ :: st', O => d :: st'
  | x :: st', S l' => x :: assign st' l' d
  end.

(** What the name [remediated_data] is bound to: a DataFrame object of the
    heap or, once a transformation has returned something else (the [None]
    of a function without a return statement, say), that value. *)
Inductive binding : Type :=
| FrameAt (l : loc)
| NotAFrame (v : json).

(** What a call of a transformation returns: the object it was handed,
    another DataFrame, or a value that is not a DataFrame. *)
Inductive returned : Type :=
| SameObject
| NewFrame (d : DataFrame)
| Value (v : json).

(** What calling a transformation on a DataFrame does: the state it leaves
    that object in, and whether it raised or what it returned. *)
Record Effect : Type := {
  arg_after : DataFrame;
  outcome : result returned
}.

(** A callable found by the executor: what it does when handed a
    DataFrame, and when handed a value that is not one. *)
Record transformation : Type := {
  on_frame : DataFrame -> Effect;
  on_value : json -> result returned
}.

(** What [exec(code, globals(), local_vars)] and the search for a callable
    in [local_vars] come to. *)
Inductive exec_result : Type :=
| ExecRaise (e : exn)
| ExecNoCallable
| ExecCallable (f : transformation).

Section Recommender.

(** The text-generation service, [json.loads] ([None]: it raises),
    [PromptTemplate.format] over the [json.dumps] of the samples, [exec],
    [str] of a plan value inside an f-string, and the interpreter behind
    [execute_validation_on_data]. *)
Variable llm : string -> result string.
Variable json_loads : string -> option json.
Variable format_prompt :
  string -> RuleTemplate -> list (dict cell) -> RuleEntry -> result string.
Variable py_exec : string -> exec_result.
Variable format_value : json -> string.
Variable import_and_validate : string -> string -> DataFrame -> result Results.

Definition required_keys : list string :=
  ["explanation"; "remediation_steps"; "can_automate"; "auditor_explanation"].

Definition fallback_plan (rule_id : string) (rule_info : RuleTemplate) : Plan :=
  [("rule_id", JStr rule_id);
   ("rule_type", JStr (get (t_type rule_info) "unknown"));
   ("severity", JStr (get (t_severity rule_info) "unknown"));
   ("explanation", JStr "Could not generate explanation due to an error.");
   ("remediation_steps", JArr [JStr "Manual review required"]);
   ("can_automate", JBool false);
   ("automation_code", JStr "N/A");
   ("auditor_explanation",
    JStr ("Validation failed, but automatic remediation recommendation "
          ++ "could not be generated. Manual review required."))].

(** The fence handling before [json.loads]. *)
Definition unfence (llm_response : string) : string :=
  if PyStr.contains "```" llm_response then
    let json_str := item (PyStr.split "```" llm_response) 1 in
    if PyStr.startswith "json" json_str
    then PyStr.strip (PyStr.drop 4 json_str)
    else json_str
  else llm_response.

(** [if key not in remediation_plan: remediation_plan[key] = "Not provided"] *)
Definition fill_key (p : Plan) (key : string) : Plan :=
  match dict_get key p with
  | None => dict_set key (JStr "Not provided") p
  | Some _ => p
  end.

Definition fill_required (remediation_plan : Plan) : Plan :=
  fold_left fill_key required_keys remediation_plan.

(** The [try] block of [_generate_single_remediation]. *)
Definition parse_plan (rule_id : string) (rule_info : RuleTemplate)
  (formatted_prompt : string) : result Plan :=
  llm_response <- llm formatted_prompt ;;
  match json_loads (unfence llm_response) with
  | None => Raise (Exn "JSONDecodeError" "Expecting value")
  | Some (JObj o) =>
      let remediation_plan := fill_required o in
      Ok (dict_set "severity" (JStr (get (t_severity rule_info) "unknown"))
            (dict_set "rule_type" (JStr (get (t_type rule_info) "unknown"))
               (dict_set "rule_id" (JStr rule_id) remediation_plan)))
  | Some _ => Raise (TypeError "object does not support item assignment")
  end.

Definition _generate_single_remediation (rule_id : string)
  (rule_info : RuleTemplate) (rule_result : RuleEntry)
  (failed_data : list (dict cell)) : result Plan :=
  formatted_prompt <- format_prompt rule_id rule_info failed_data rule_result ;;
  match parse_plan rule_id rule_info formatted_prompt with
  | Ok remediation_plan => Ok remediation_plan
  | Raise _ => Ok (fallback_plan rule_id rule_info)
  end.

(** The dict comprehension building [rule_details]. *)
Fixpoint rule_details_of (failed_rules : list string)
  (rule_templates : list RuleTemplate) (acc : dict RuleTemplate)
  : result (dict RuleTemplate) :=
  match rule_templates with
  | [] => Ok acc
  | rule :: rest =>
      match t_rule_id rule with
      | None => Raise (KeyError "rule_id")
      | Some id =>
          rule_details_of failed_rules rest
            (if existsb (String.eqb id) failed_rules
             then dict_set id rule acc
             else acc)
      end
  end.

(** [if remediation_plan["can_automate"]]: the key is present in a filled
    plan and in the fallback plan. *)
Definition count_plan (remediation_plan : Plan) (s : RemediationSummary)
  : RemediationSummary :=
  if truthy (get (dict_get "can_automate" remediation_plan) JNull) then
    {| total_issues := total_issues s;
       remediated_issues := S (remediated_issues s);
       manual_review_issues := manual_review_issues s |}
  else
    {| total_issues := total_issues s;
       remediated_issues := remediated_issues s;
       manual_review_issues := S (manual_review_issues s) |}.

(** The loop [for rule_id in failed_rules]. *)
Fixpoint process_failed (validation_results : Results) (data : DataFrame)
  (rule_details : dict RuleTemplate) (failed_rules : list string)
  (recommendations : Recommendations) : result Recommendations :=
  match failed_rules with
  | [] => Ok recommendations
  | rule_id :: rest =>
      match dict_get rule_id (rule_results validation_results) with
      | None => process_failed validation_results data rule_details rest
                  recommendations
      | Some rule_result =>
          let rule_info := get (dict_get rule_id rule_details) no_info in
          let failed_indices := get (e_failed_records rule_result) [] in
          if is_empty failed_indices then
            process_failed validation_results data rule_details rest
              recommendations
          else
            failed_data <- loc_records data (firstn 10 failed_indices) ;;
            remediation_plan <-
              _generate_single_remediation rule_id rule_info rule_result
                failed_data ;;
            process_failed validation_results data rule_details rest
              {| rec_summary :=
                   count_plan remediation_plan (rec_summary recommendations);
                 remediation_plans :=
                   dict_set rule_id remediation_plan
                     (remediation_plans recommendations) |}
      end
  end.

(** A [Results] value always has its ["rule_results"] and every entry its
    ["passed"], so the early return for a missing key and the default of
    [result.get("passed", True)] are never taken. *)
Definition generate_remediation_recommendations (validation_results : Results)
  (data : DataFrame) (rule_templates : list RuleTemplate)
  : result Recommendations :=
  let failed_rules :=
    map fst (filter (fun kv => negb (e_passed (snd kv)))
                    (rule_results validation_results)) in
  let recommendations :=
    {| rec_summary := {| total_issues := List.length failed_rules;
                         remediated_issues := 0;
                         manual_review_issues := 0 |};
       remediation_plans := [] |} in
  if is_empty failed_rules then Ok recommendations
  else
    rule_details <- rule_details_of failed_rules rule_templates [] ;;
    process_failed validation_results data rule_details failed_rules
      recommendations.

(** *** apply_automatic_remediations *)

Definition automation_prompt (plan : Plan) : string :=
  "
                Convert the following remediation pseudocode to executable Python code 
                that can be applied to a pandas DataFrame named 'df':

                " ++ format_value (get (dict_get "automation_code" plan) (JStr "")) ++ "

                The code should:
                1. Accept a pandas DataFrame as input
                2. Apply the remediation logic
                3. Return the modified DataFrame
                4. Include appropriate error handling

                Return only the Python function definition.
                ".

Definition applied (rule_id : string) (plan : Plan) : AppliedRecord :=
  {| a_rule_id := rule_id;
     a_status := "applied";
     a_error := None;
     a_description := Some (get (dict_get "explanation" plan) (JStr "")) |}.

Definition failed (rule_id : string) (error : string) : AppliedRecord :=
  {| a_rule_id := rule_id;
     a_status := "failed";
     a_error := Some error;
     a_description := None |}.

(** The value a call [remediation_func(remediated_data)] leaves in
    [remediated_data], on the heap [st]. *)
Definition rebind (st : store) (remediated_data : binding) (r : returned)
  : store * binding :=
  match r with
  | SameObject => (st, remediated_data)
  | NewFrame d => let (st', l) := alloc st d in (st', FrameAt l)
  | Value v => (st, NotAFrame v)
  end.

(** The [try] block for one plan: the heap, what [remediated_data] is
    bound to, and the record appended. *)
Definition attempt (st : store) (remediated_data : binding) (rule_id : string)
  (plan : Plan) : store * binding * AppliedRecord :=
  match llm (automation_prompt plan) with
  | Raise e => (st, remediated_data, failed rule_id (str_of_exn e))
  | Ok code =>
      match py_exec code with
      | ExecRaise e => (st, remediated_data, failed rule_id (str_of_exn e))
      | ExecNoCallable =>
          (st, remediated_data,
           failed rule_id "Could not extract remediation function from code")
      | ExecCallable remediation_func =>
          match remediated_data with
          | FrameAt l =>
              let eff := on_frame remediation_func (deref st l) in
              let st1 := assign st l (arg_after eff) in
              match outcome eff with
              | Raise e =>
                  (st1, remediated_data, failed rule_id (str_of_exn e))
              | Ok r =>
                  let (st2, b) := rebind st1 remediated_data r in
                  (st2, b, applied rule_id plan)
              end
          | NotAFrame v =>
              match on_value remediation_func v with
              | Raise e =>
                  (st, remediated_data, failed rule_id (str_of_exn e))
              | Ok r =>
                  let (st2, b) := rebind st remediated_data r in
                  (st2, b, applied rule_id plan)
              end
          end
      end
  end.

Fixpoint apply_loop (st : store) (remediated_data : binding)
  (plans : dict Plan) (applied_remediations : list AppliedRecord)
  : store * binding * list AppliedRecord :=
  match plans with
  | [] => (st, remediated_data, applied_remediations)
  | (rule_id, plan) :: rest =>
      if negb (truthy (get (dict_get "can_automate" plan) (JBool false)))
      then apply_loop st remediated_data rest applied_remediations
      else
        let '(st1, b, r) := attempt st remediated_data rule_id plan in
        apply_loop st1 b rest (applied_remediations ++ [r])%list
  end.

(** [data] is the caller's DataFrame; the result names the heap
    afterwards, the value returned as [remediated_data], and
    [applied_remediations]. *)
Definition apply_automatic_remediations (st : store) (data : loc)
  (remediation_plans : dict Plan) : store * binding * list AppliedRecord :=
  let (st0, remediated_data) := alloc st (deref st data) in
  apply_loop st0 (FrameAt remediated_data) remediation_plans [].

(** *** The orchestrator stages that chain the two classes
    ([profiling/data.py], steps 3 to 6 of [run_end_to_end_pipeline], with
    [data] given and [rule_templates] as steps 1 and 2 left them). *)

Record Bundle : Type := {
  b_store : store;
  b_remediated_data : option binding;
  b_validation_results : option Results;
  b_remediation_plans : option Recommendations;
  b_applied_remediations : list AppliedRecord
}.

(** [generate_validation_code]: a no-op without rule templates. *)
Definition stage_validation_code (rule_templates : list RuleTemplate)
  : result (option string) :=
  if is_empty rule_templates then Ok None
  else code <- generate_pandas_validation rule_templates ;; Ok (Some code).

(** [validate_data]: a no-op without validation code. *)
Definition stage_validate (now : string) (validation_code : option string)
  (df : DataFrame) : result (option Results) :=
  match validation_code with
  | None => Ok None
  | Some code =>
      if code =? "" then Ok None
      else r <- execute_validation_on_data import_and_validate now code df ;;
           Ok (Some r)
  end.

(** [generate_remediation_plans]: a no-op without results or templates. *)
Definition stage_remediation_plans (validation_results : option Results)
  (rule_templates : list RuleTemplate) (df : DataFrame)
  : result (option Recommendations) :=
  match validation_results with
  | None => Ok None
  | Some vr =>
      if is_empty rule_templates then Ok None
      else r <- generate_remediation_recommendations vr df rule_templates ;;
           Ok (Some r)
  end.

(** No stage is wrapped in a [try]: an exception of a stage ends the run. *)
Definition run_end_to_end_pipeline (now : string)
  (rule_templates : list RuleTemplate) (st : store) (data : loc)
  : result Bundle :=
  validation_code <- stage_validation_code rule_templates ;;
  validation_results <-
    stage_validate now validation_code (deref st data) ;;
  plans <-
    stage_remediation_plans validation_results rule_templates
      (deref st data) ;;
  match plans with
  | None =>
      Ok {| b_store := st;
            b_remediated_data := None;
            b_validation_results := validation_results;
            b_remediation_plans := None;
            b_applied_remediations := [] |}
  | Some plans =>
      let (st0, df) := alloc st (deref st data) in
      let '(st1, remediated_data, applied_remediations) :=
        apply_automatic_remediations st0 df (remediation_plans plans) in
      Ok {| b_store := st1;
            b_remediated_data := Some remediated_data;
            b_validation_results := validation_results;
            b_remediation_plans := Some plans;
            b_applied_remediations := applied_remediations |}
  end.

End Recommender.

(** *** The prompt of [_generate_single_remediation]

    The template reads [{rule_info[type]}], [{rule_info[description]}] and
    [{rule_info[severity]}], in that order, and is formatted before the
    [try] block: a [rule_info] without one of the keys raises KeyError out
    of the synthesizer.  [render] is the text around the values. *)

Definition prompt_format
  (render : string -> string -> string -> string -> list (dict cell)
            -> RuleEntry -> string)
  (rule_id : string) (rule_info : RuleTemplate)
  (failed_data : list (dict cell)) (rule_result : RuleEntry) : result string :=
  match t_type rule_info with
  | None => Raise (KeyError "type")
  | Some rule_type =>
      match t_description rule_info with
      | None => Raise (KeyError "description")
      | Some description =>
          match t_severity rule_info with
          | None => Raise (KeyError "severity")
          | Some severity =>
              Ok (render rule_id rule_type description severity
                    failed_data rule_result)
          end
      end
  end.

(* ------------------------------------------------------------------ *)
(** ** Readings of the loops *)

(** Whether a template has the key the loop indexes, [rule["rule_id"]]. *)
Definition has_rule_id (t : RuleTemplate) : bool :=
  match t_rule_id t with
  | Some _ => true
  | None => false
  end.

(** Whether a block is emitted for a template that has a rule id. *)
Definition emits_block (t : RuleTemplate) : bool :=
  let ty := get (t_type t) "" in
  let elements := get (t_elements t) [] in
  negb (is_empty elements)
  && ((ty =? "range_check") || (ty =? "categorical_check")
      || (ty =? "not_null_check")
      || ((ty =? "cross_field_check") && (2 <=? List.length elements)%nat)).

(** [rule] with [logic] under its ["logic"] key. *)
Definition with_logic (logic : string) (rule : RuleTemplate) : RuleTemplate :=
  {| t_rule_id := t_rule_id rule;
     t_type := t_type rule;
     t_elements := t_elements rule;
     t_logic := Some logic;
     t_description := t_description rule;
     t_severity := t_severity rule |}.

(** The rule ids, descriptions and severities of the templates for which a
    block is emitted, in template order. *)
Definition emitted (rule_templates : list RuleTemplate)
  : list (string * string * string) :=
  map (fun t => (get (t_rule_id t) "", get (t_description t) "",
                 get (t_severity t) "warning"))
      (filter emits_block rule_templates).

(** Whether a rule counts as passed on [df]: its validation function
    returns, and returns [passed]. *)
Definition rule_passes (df : DataFrame) (r : Rule) : bool :=
  match validation_function r df with
  | Ok rule_result => passed rule_result
  | Raise _ => false
  end.


(** The entry the executor stores for a rule run on [df]. *)
Definition entry_of (df : DataFrame) (r : Rule) : RuleEntry :=
  match validation_function r df with
  | Ok rule_result =>
      if passed rule_result then
        {| e_passed := true;
           e_description := description r;
           e_severity := severity r;
           e_failed_records := None;
           e_error_message := None |}
      else
        {| e_passed := false;
           e_description := description r;
           e_severity := severity r;
           e_failed_records := Some (get (failed_records rule_result) []);
           e_error_message := Some (get (error_message rule_result) "") |}
  | Raise e =>
      {| e_passed := false;
         e_description := description r;
         e_severity := severity r;
         e_failed_records := None;
         e_error_message := Some ("Error executing rule: " ++ str_of_exn e) |}
  end.

(** A binding that names none of the objects below [n]. *)
Definition not_below (n : nat) (b : binding) : Prop :=
  match b with
  | FrameAt l => (n <= l)%nat
  | NotAFrame _ => True
  end.

(** The last rule of a list that carries [id]. *)
Definition last_rule (id : string) (rules : list Rule) : option Rule :=
  fold_left (fun acc r => if rule_id r =? id then Some r else acc) rules None.

(** A key list after [d[k] = v]. *)
Definition add_key (k : string) (ks : list string) : list string :=
  if existsb (String.eqb k) ks then ks else (ks ++ [k])%list.

(** The distinct elements of a list, in order of first occurrence. *)
Definition first_occurrences (l : list string) : list string :=
  fold_left (fun acc k => add_key k acc) l [].


(** The keys [_generate_single_remediation] writes itself. *)
Definition metadata_keys : list string := ["rule_id"; "rule_type"; "severity"].

(** The service response gives no plan: the call raises, the text does not
    decode, or it decodes to something that is not an object. *)
Definition response_unusable (llm : string -> result string)
  (json_loads : string -> option json) (prompt : string) : Prop :=
  match llm prompt with
  | Raise _ => True
  | Ok llm_response =>
      match json_loads (unfence llm_response) with
      | Some (JObj _) => False
      | _ => True
      end
  end.

(** Whether the executor attempts a plan. *)
Definition automated (kp : string * Plan) : bool :=
  truthy (get (dict_get "can_automate" (snd kp)) (JBool false)).

(** The sum of the two counters the synthesizer bumps per plan. *)
Definition handled (recs : Recommendations) : nat :=
  remediated_issues (rec_summary recs)
  + manual_review_issues (rec_summary recs).

(** The two shapes of an applied record. *)
Definition record_shape (r : AppliedRecord) : Prop :=
  (a_status r = "applied" /\ a_error r = None /\ a_description r <> None)
  \/ (a_status r = "failed" /\ a_error r <> None /\ a_description r = None).

(* ------------------------------------------------------------------ *)
(** ** generate_audit_report: the aggregation before the narrative *)

(** An element of [report_data["issue_details"]]. *)
Record IssueDetail : Type := {
  i_rule_id : string;
  i_description : json;
  i_severity : json;
  i_remediation_steps : json;
  i_automated : json;
  i_remediation_status : string;
  i_remediation_error : option string;
  i_auditor_explanation : json
}.

Record ReportData : Type := {
  validation_summary : Summary;
  rd_total_issues : nat;
  automated_remediations : nat;
  failed_remediations : nat;
  manual_review_required : nat;
  issue_details : list IssueDetail
}.

(** The body of [for rem in applied_remediations] for one issue: the
    status and error found so far. *)
Definition join_step (rule_id : string) (acc : string * option string)
  (rem : AppliedRecord) : string * option string :=
  if a_rule_id rem =? rule_id then
    let remediation_status := a_status rem in
    (remediation_status,
     if remediation_status =? "failed"
     then Some (get (a_error rem) "Unknown error")
     else snd acc)
  else acc.

Definition remediation_outcome (rule_id : string)
  (applied_remediations : list AppliedRecord) : string * option string :=
  fold_left (join_step rule_id) applied_remediations ("not_attempted", None).

Definition issue_detail (applied_remediations : list AppliedRecord)
  (kp : string * Plan) : IssueDetail :=
  let (rule_id, plan) := kp in
  let (remediation_status, remediation_error) :=
    remediation_outcome rule_id applied_remediations in
  {| i_rule_id := rule_id;
     i_description := get (dict_get "explanation" plan) (JStr "");
     i_severity := get (dict_get "severity" plan) (JStr "unknown");
     i_remediation_steps := get (dict_get "remediation_steps" plan) (JArr []);
     i_automated := get (dict_get "can_automate" plan) (JBool false);
     i_remediation_status := remediation_status;
     i_remediation_error := remediation_error;
     i_auditor_explanation :=
       get (dict_get "auditor_explanation" plan) (JStr "") |}.

(** [report_data], as built before the report prompt.  The
    [rule_result] looked up for each issue is not used by the source. *)
Definition report_data (validation_results : Results)
  (remediation_plans : dict Plan) (applied_remediations : list AppliedRecord)
  : ReportData :=
  {| validation_summary := summary validation_results;
     rd_total_issues := List.length remediation_plans;
     automated_remediations :=
       List.length (filter (fun p => a_status p =? "applied")
                           applied_remediations);
     failed_remediations :=
       List.length (filter (fun p => a_status p =? "failed")
                           applied_remediations);
     manual_review_required :=
       List.length
         (filter (fun kp => negb (truthy (get (dict_get "can_automate" (snd kp))
                                             (JBool false))))
                 remediation_plans);
     issue_details := map (issue_detail applied_remediations)
                          remediation_plans |}.

(** [format_report] renders the report prompt around
    [json.dumps(report_data)]; the narrative is whatever the service
    answers. *)
Definition generate_audit_report (llm : string -> result string)
  (format_report : ReportData -> string) (validation_results : Results)
  (remediation_plans : dict Plan) (applied_remediations : list AppliedRecord)
  : result string :=
  llm (format_report
         (report_data validation_results remediation_plans
            applied_remediations)).

(* ------------------------------------------------------------------ *)
(** ** The rule templates [discover_rules_from_data] appends
    ([rule/generator.py]).  The statistics behind them (quantiles, value
    counts, correlations) are floating-point and stay outside; the texts
    they are formatted to are parameters.  The extra key ["confidence"] is
    read by nothing. *)

Definition auto_range_rule (col lower_bound upper_bound : string)
  (lower_2f upper_2f : string) : RuleTemplate :=
  {| t_rule_id := Some ("auto_range_" ++ col);
     t_type := Some "range_check";
     t_elements := Some [col];
     t_logic := Some (col ++ " >= " ++ lower_bound ++ " AND "
                      ++ col ++ " <= " ++ upper_bound);
     t_description := Some ("Value of " ++ col
                            ++ " should typically be between " ++ lower_2f
                            ++ " and " ++ upper_2f);
     t_severity := Some "warning" |}.

Definition auto_categorical_rule (col common_values joined : string)
  : RuleTemplate :=
  {| t_rule_id := Some ("auto_categorical_" ++ col);
     t_type := Some "categorical_check";
     t_elements := Some [col];
     t_logic := Some (col ++ " IN " ++ common_values);
     t_description := Some (col
                            ++ " typically contains one of these values: "
                            ++ joined);
     t_severity := Some "warning" |}.

Definition auto_correlation_rule (col1 col2 corr_2f : string)
  : RuleTemplate :=
  {| t_rule_id := Some ("auto_correlation_" ++ col1 ++ "_" ++ col2);
     t_type := Some "correlation_check";
     t_elements := Some [col1; col2];
     t_logic := Some ("Correlation between " ++ col1 ++ " and " ++ col2);
     t_description := Some (col1 ++ " and " ++ col2
                            ++ " appear to be correlated (correlation: "
                            ++ corr_2f ++ ")");
     t_severity := Some "info" |}.

(** [s] holds no character [c]. *)
Fixpoint free_of (c : ascii) (s : string) : bool :=
  match s with
  | EmptyString => true
  | String a s' => negb (Ascii.eqb a c) && free_of c s'
  end.

(** [s] is not empty and [strip] has nothing to remove from it. *)
Definition tight (s : string) : Prop :=
  s <> EmptyString /\ PyStr.lstrip s = s /\ PyStr.rstrip s = s.

(* ------------------------------------------------------------------ *)
(** ** create_great_expectations_suite: the loop over the templates
    ([rule/generator.py]).  The suite object belongs to the external
    library; what is embedded is the sequence of expectations the loop
    hands to [suite.add_expectation], in call order. *)

(** [s.replace(a, b)] for single characters. *)
Fixpoint replace_char (a b : ascii) (s : string) : string :=
  match s with
  | EmptyString => EmptyString
  | String c s' =>
      String (if Ascii.eqb c a then b else c) (replace_char a b s')
  end.

Section Suite.

(** Python floats, [float(text)] ([None]: it raises ValueError) and
    [json.loads] ([None]: it raises). *)
Variable F : Type.
Variable neg_inf pos_inf : F.
Variable py_float : string -> option F.
Variable json_loads : string -> option json.

Inductive Expectation : Type :=
| ExpectBetween (column : string) (min_value max_value : F)
| ExpectInSet (column : string) (value_set : json)
| ExpectNotNull (column : string).

Definition to_float (text : string) : result F :=
  match py_float text with
  | Some x => Ok x
  | None => Raise (Exn "ValueError"
                       ("could not convert string to float: '" ++ text ++ "'"))
  end.

(** One iteration: [None] is a template that adds no expectation. *)
Definition suite_step (rule : RuleTemplate) : result (option Expectation) :=
  let rule_type := get (t_type rule) "" in
  let elements := get (t_elements rule) [] in
  match elements with
  | [] => Ok None
  | primary_element :: _ =>
      if rule_type =? "range_check" then
        let logic := get (t_logic rule) "" in
        lower_bound <-
          (if PyStr.contains ">=" logic
           then to_float
                  (PyStr.strip
                     (item (PyStr.split "AND" (item (PyStr.split ">=" logic) 1))
                           0))
           else Ok neg_inf) ;;
        upper_bound <-
          (if PyStr.contains "<=" logic
           then to_float (PyStr.strip (item (PyStr.split "<=" logic) 1))
           else Ok pos_inf) ;;
        Ok (Some (ExpectBetween primary_element lower_bound upper_bound))
      else if rule_type =? "categorical_check" then
        let logic := get (t_logic rule) "" in
        if PyStr.contains "IN" logic then
          let valid_values := PyStr.strip (item (PyStr.split "IN" logic) 1) in
          match json_loads (replace_char Literal.sq Literal.dq valid_values) with
          | Some v => Ok (Some (ExpectInSet primary_element v))
          | None => Raise (Exn "JSONDecodeError" "Expecting value")
          end
        else Ok None
      else if rule_type =? "not_null_check" then
        Ok (Some (ExpectNotNull primary_element))
      else Ok None
  end.

Fixpoint added_expectations (rule_templates : list RuleTemplate)
  : result (list Expectation) :=
  match rule_templates with
  | [] => Ok []
  | rule :: rest =>
      e <- suite_step rule ;;
      es <- added_expectations rest ;;
      Ok (match e with
          | Some x => x :: es
          | None => es
          end)
  end.

(** A range rule one of whose bound texts [float] rejects. *)
Definition unparsable_range (t : RuleTemplate) : Prop :=
  get (t_type t) "" = "range_check"
  /\ get (t_elements t) [] <> []
  /\ let logic := get (t_logic t) "" in
     (PyStr.contains ">=" logic = true
      /\ py_float (PyStr.strip
                     (item (PyStr.split "AND" (item (PyStr.split ">=" logic) 1))
                           0)) = None)
     \/ (PyStr.contains "<=" logic = true
         /\ py_float (PyStr.strip (item (PyStr.split "<=" logic) 1)) = None).

End Suite.

(** A stand-in for [float] that reads integer literals only. *)
Definition sample_float (text : string) : option Z := py_int text.

(* ------------------------------------------------------------------ *)
(** ** Sample inputs *)

Definition template (id ty : string) (elements : list string) (logic : string)
  : RuleTemplate :=
  {| t_rule_id := Some id;
     t_type := Some ty;
     t_elements := Some elements;
     t_logic := Some logic;
     t_description := Some "sample rule";
     t_severity := Some "high" |}.

Definition amount_frame : DataFrame :=
  {| df_index := [0; 1; 2; 3]%Z;
     df_columns := [("amount", [CNum 5; CNum 15; CNum 25; CNull])] |}.

Definition status_frame : DataFrame :=
  {| df_index := [0; 1; 2]%Z;
     df_columns := [("status", [CStr "A"; CStr "C"; CNull])] |}.

Definition amount_rule : RuleTemplate :=
  template "R1" "range_check" ["amount"] "amount >= 10 AND amount <= 20".

Definition status_rule : RuleTemplate :=
  template "C1" "categorical_check" ["status"] "status IN ['A', 'B']".

Definition status_rule_without_set : RuleTemplate :=
  template "C2" "categorical_check" ["status"] "status must be a known code".

Definition rule_without_elements : RuleTemplate :=
  template "E1" "range_check" [] "amount >= 10".

Definition rule_without_id : RuleTemplate :=
  {| t_rule_id := None;
     t_type := Some "not_null_check";
     t_elements := Some ["amount"];
     t_logic := None;
     t_description := None;
     t_severity := None |}.

Definition sample_time : string := "2024-05-01T09:30:00".

Definition not_null_rule : RuleTemplate :=
  template "N1" "not_null_check" ["amount"] "".

Definition cross_rule : RuleTemplate :=
  template "X1" "cross_field_check" ["billed"; "paid"] "billed == paid".

(** A template the compile loop accepts through its defaults. *)
Definition bare_rule : RuleTemplate :=
  {| t_rule_id := Some "R1";
     t_type := Some "not_null_check";
     t_elements := Some ["amount"];
     t_logic := None;
     t_description := None;
     t_severity := None |}.

(** A rule that reports three rows, and one that reports a missing
    column. *)
Definition out_of_range_rule : Rule :=
  {| rule_id := "R1";
     description := "sample rule";
     severity := "high";
     validation_function :=
       fun _ => Ok {| passed := false;
                      failed_records := Some [0; 2; 3]%Z;
                      error_message := None |} |}.

Definition missing_column_rule : Rule :=
  {| rule_id := "C1";
     description := "sample rule";
     severity := "high";
     validation_function :=
       fun _ => Ok {| passed := false;
                      failed_records := None;
                      error_message :=
                        Some "Column status not found in DataFrame" |} |}.

(** What the executor records for them. *)
Definition sample_results : Results :=
  Eval vm_compute in
    validate_data sample_time [out_of_range_rule; missing_column_rule]
      amount_frame.

(** A rule whose validation function raises. *)
Definition raising_rule : Rule :=
  {| rule_id := "R2";
     description := "sample rule";
     severity := "high";
     validation_function :=
       fun _ => Raise (TypeError ("'>=' not supported between instances of "
                                  ++ "'str' and 'int'")) |}.

(** A rule with the id of [raising_rule] that passes. *)
Definition passing_rule : Rule :=
  {| rule_id := "R2";
     description := "second rule under the same id";
     severity := "low";
     validation_function :=
       fun _ => Ok {| passed := true;
                      failed_records := Some [];
                      error_message := None |} |}.

(** A rule that reports the first row of the index. *)
Definition first_row_rule : Rule :=
  {| rule_id := "R1";
     description := "sample rule";
     severity := "high";
     validation_function :=
       fun df => Ok {| passed := is_empty (df_index df);
                       failed_records := Some (firstn 1 (df_index df));
                       error_message := None |} |}.

(** *** A deterministic stand-in for the external services *)

(** The service answers every prompt with one canned, fenced response. *)
Definition canned_response : string := "```json
{}
```".

Definition sample_llm (prompt : string) : result string := Ok canned_response.

(** The decoder on the one text it is asked to decode. *)
Definition sample_json_loads (text : string) : option json :=
  if text =? "{}" then Some (JObj []) else None.

Definition sample_format_prompt (rule_id : string) (rule_info : RuleTemplate)
  (failed_data : list (dict cell)) (rule_result : RuleEntry) : result string :=
  Ok ("Generate a remediation plan for rule " ++ rule_id).

(** A synthesized transformation that blanks the amount column in place;
    handed anything but a DataFrame, it raises. *)
Definition blank_amounts : transformation :=
  {| on_frame := fun df =>
       {| arg_after := {| df_index := df_index df;
                          df_columns := dict_set "amount"
                                          (map (fun _ => CNull) (df_index df))
                                          (df_columns df) |};
          outcome := Ok SameObject |};
     on_value := fun _ =>
       Raise (Exn "AttributeError"
                  "'NoneType' object has no attribute 'columns'") |}.

(** A transformation that works in place and has no return statement. *)
Definition blank_amounts_no_return : transformation :=
  {| on_frame := fun df =>
       {| arg_after := arg_after (on_frame blank_amounts df);
          outcome := Ok (Value JNull) |};
     on_value := on_value blank_amounts |}.

(** A transformation that blanks the column and then raises. *)
Definition blank_amounts_then_raise : transformation :=
  {| on_frame := fun df =>
       {| arg_after := arg_after (on_frame blank_amounts df);
          outcome := Raise (Exn "ValueError" "no rows left") |};
     on_value := on_value blank_amounts |}.

Definition sample_exec (code : string) : exec_result :=
  ExecCallable blank_amounts.

Definition sample_format_value (v : json) : string :=
  match v with
  | JStr s => s
  | _ => "None"
  end.

(** A stand-in for the interpreter: the import fails. *)
Definition sample_import (now code : string) (df : DataFrame)
  : result Results :=
  Raise (Exn "SyntaxError" "invalid syntax").

(** A plan for manual review only. *)
Definition manual_plan : Plan := fallback_plan "R1" amount_rule.

(** The plan decoded from the canned response for rule R1. *)
Definition canned_plan : Plan :=
  [("explanation", JStr "Not provided");
   ("remediation_steps", JStr "Not provided");
   ("can_automate", JStr "Not provided");
   ("auditor_explanation", JStr "Not provided");
   ("rule_id", JStr "R1");
   ("rule_type", JStr "range_check");
   ("severity", JStr "high")].

Definition no_recommendations : Recommendations :=
  {| rec_summary := {| total_issues := 0; remediated_issues := 0;
                       manual_review_issues := 0 |};
     remediation_plans := [] |}.

(** The plans synthesized for the sample results. *)
Definition sample_recommendations : Recommendations :=
  Eval vm_compute in
    match generate_remediation_recommendations sample_llm sample_json_loads
            sample_format_prompt sample_results amount_frame
            [amount_rule; status_rule] with
    | Ok r => r
    | Raise _ => no_recommendations
    end.

Definition later_time : string := "2024-05-01T09:30:07".

(** The text around the values of a prompt. *)
(** The service that answers a prompt for code, and the reading of its
    answer, when no function comes back. *)
Definition no_callable_exec (code : string) : exec_result := ExecNoCallable.

Definition blanked_amount_frame : DataFrame :=
  {| df_index := [0; 1; 2; 3]%Z;
     df_columns := [("amount", [CNull; CNull; CNull; CNull])] |}.

Definition sample_render (rule_id rule_type description severity : string)
  (failed_data : list (dict cell)) (rule_result : RuleEntry) : string :=
  "Rule ID: " ++ rule_id ++ ", Rule Type: " ++ rule_type
  ++ ", Rule Description: " ++ description ++ ", Severity: " ++ severity.

(* ------------------------------------------------------------------ *)
(** * Properties *)

(** ** The string helpers on sample inputs *)

Example split_ge : PyStr.split ">=" "a>=1>=2" = ["a"; "1"; "2"].
Proof. reflexivity. Qed.

Example split_overlap : PyStr.split "aa" "aaa" = [""; "a"].
Proof. reflexivity. Qed.

Example split_trailing : PyStr.split "IN" "xIN" = ["x"; ""].
Proof. reflexivity. Qed.

Example strip_both : PyStr.strip "  10 " = "10".
Proof. reflexivity. Qed.

Example strip_no_break_space :
  PyStr.strip (String (ascii_of_nat 160) "10 ") = "10".
Proof. reflexivity. Qed.

(** ** Indexing a split at 1 is safe under the guard [sep in s] *)

Lemma split_go_found (sep s : string) :
  PyStr.contains sep s = true -> s <> EmptyString ->
  exists p q qs, PyStr.split_go sep s 0 = (p, q :: qs).
Proof.
  induction s as [|c s IH]; intros Hin Hne; [congruence|].
  simpl in Hin. cbn [PyStr.split_go].
  destruct (PyStr.startswith sep (String c s)) eqn:Hp.
  - destruct (PyStr.split_go sep s (String.length sep - 1)) as [p ps].
    now exists EmptyString, p, ps.
  - simpl in Hin. destruct s as [|c' s'].
    + simpl in Hin. destruct sep; simpl in *; congruence.
    + destruct (IH Hin) as (p & q & qs & E); [congruence|].
      rewrite E. now exists (String c p), q, qs.
Qed.

Lemma split_has_second_piece (sep s : string) :
  sep <> EmptyString -> PyStr.contains sep s = true ->
  (2 <= List.length (PyStr.split sep s))%nat.
Proof.
  intros Hsep Hin. unfold PyStr.split.
  destruct s as [|c s].
  - destruct sep; simpl in Hin; congruence.
  - destruct (@split_go_found sep (String c s) Hin) as (p & q & qs & E);
      [congruence|].
    rewrite E. simpl. lia.
Qed.

(** ** Dicts *)

Section DictFacts.
Variable V : Type.
Implicit Types (d : dict V) (k : string) (v : V).

Lemma dict_get_set_same d k v : dict_get k (dict_set k v d) = Some v.
Proof.
  induction d as [|[k' v'] d IH]; simpl.
  - now rewrite String.eqb_refl.
  - destruct (String.eqb k k') eqn:E; simpl; rewrite ?String.eqb_refl, ?E; auto.
Qed.

Lemma dict_get_set_other d k k' v :
  k' <> k -> dict_get k' (dict_set k v d) = dict_get k' d.
Proof.
  intros Hne. induction d as [|[k0 v0] d IH]; simpl.
  - apply String.eqb_neq in Hne. now rewrite Hne.
  - destruct (String.eqb k k0) eqn:E; simpl.
    + apply String.eqb_eq in E. subst k0.
      apply String.eqb_neq in Hne. now rewrite Hne.
    + now rewrite IH.
Qed.



Lemma dict_get_in_keys d k : dict_get k d <> None <-> In k (keys d).
Proof.
  induction d as [|[k0 v0] d IH]; simpl.
  - intuition.
  - destruct (String.eqb k k0) eqn:E.
    + apply String.eqb_eq in E. subst. intuition congruence.
    + apply String.eqb_neq in E. rewrite IH. intuition congruence.
Qed.

End DictFacts.

(** ** The executor's counters *)

Lemma run_rule_summary (df : DataFrame) (results : Results) (r : Rule) :
  let s := summary results in
  let s' := summary (run_rule df results r) in
  total_rules s' = S (total_rules s)
  /\ passed_rules s' = (if rule_passes df r then 1 else 0) + passed_rules s
  /\ failed_rules s' = (if rule_passes df r then 0 else 1) + failed_rules s
  /\ validation_timestamp s' = validation_timestamp s.
Proof.
  unfold run_rule, rule_passes.
  destruct (validation_function r df) as [rr|e]; [destruct (passed rr)|];
    simpl; auto.
Qed.

Lemma fold_run_rule_summary (df : DataFrame) (rules : list Rule) :
  forall results,
    let s := summary results in
    let s' := summary (fold_left (run_rule df) rules results) in
    total_rules s' = List.length rules + total_rules s
    /\ passed_rules s'
       = List.length (filter (rule_passes df) rules) + passed_rules s
    /\ failed_rules s'
       = List.length (filter (fun r => negb (rule_passes df r)) rules)
         + failed_rules s
    /\ validation_timestamp s' = validation_timestamp s.
Proof.
  induction rules as [|r rules IH]; intros results; simpl; [auto|].
  destruct (IH (run_rule df results r)) as (Ht & Hp & Hf & Hts).
  destruct (run_rule_summary df results r) as (Ht1 & Hp1 & Hf1 & Hts1).
  simpl in *. rewrite Ht, Hp, Hf, Hts, Ht1, Hp1, Hf1, Hts1.
  destruct (rule_passes df r); simpl; repeat split; lia.
Qed.

(** C1.  After every run of the executor the summary satisfies
    [total == passed + failed]: each rule of [validation_rules] is counted
    once, as passed when its validation function returns [passed], and as
    failed otherwise, a function that raises included. *)
Theorem summary_total_is_passed_plus_failed :
  forall (now : string) (validation_rules : list Rule) (df : DataFrame),
    let s := summary (validate_data now validation_rules df) in
    total_rules s = passed_rules s + failed_rules s
    /\ total_rules s = List.length validation_rules
    /\ passed_rules s
       = List.length (filter (rule_passes df) validation_rules)
    /\ failed_rules s
       = List.length (filter (fun r => negb (rule_passes df r))
                             validation_rules)
    /\ (forall r e, validation_function r df = Raise e ->
                    rule_passes df r = false).
Proof.
  assert (L : forall (df : DataFrame) (rules : list Rule),
             List.length rules
             = List.length (filter (rule_passes df) rules)
               + List.length (filter (fun r => negb (rule_passes df r)) rules)).
  { intros df rules. induction rules as [|r rules IH]; simpl; [reflexivity|].
    destruct (rule_passes df r); simpl; lia. }
  intros now rules df. unfold validate_data.
  match goal with
  | |- context [fold_left _ _ ?r0] =>
      destruct (fold_run_rule_summary df rules r0) as (Ht & Hp & Hf & _)
  end.
  cbv zeta in *. simpl in Ht, Hp, Hf. rewrite Ht, Hp, Hf, !Nat.add_0_r.
  repeat split; try apply L.
  intros r e He. unfold rule_passes. now rewrite He.
Qed.

Lemma summary_total_is_passed_plus_failed_witness :
  validation_function raising_rule amount_frame
  = Raise (TypeError ("'>=' not supported between instances of "
                      ++ "'str' and 'int'"))
  /\ rule_passes amount_frame raising_rule = false
  /\ summary (validate_data sample_time [raising_rule; passing_rule]
                            amount_frame)
     = {| total_rules := 2; passed_rules := 1; failed_rules := 1;
          validation_timestamp := sample_time |}
  /\ (2 = 1 + 1)%nat.
Proof.
  destruct (summary_total_is_passed_plus_failed sample_time
              [raising_rule; passing_rule] amount_frame)
    as (Hsum & _ & _ & _ & Hraise).
  split; [reflexivity|].
  split; [exact (Hraise raising_rule _ eq_refl)|].
  split; [reflexivity | exact Hsum].
Defined.

Example raising_rule_is_counted_as_failed :
  summary (validate_data sample_time [raising_rule; first_row_rule]
                         amount_frame)
  = {| total_rules := 2; passed_rules := 0; failed_rules := 2;
       validation_timestamp := sample_time |}
  /\ summary (validate_data sample_time [raising_rule; passing_rule]
                            amount_frame)
     = {| total_rules := 2; passed_rules := 1; failed_rules := 1;
          validation_timestamp := sample_time |}.
Proof. split; reflexivity. Qed.

(** ** The compile loop and the closing format *)

Lemma compile_rule_cases (t : RuleTemplate) :
  match t_rule_id t with
  | None => compile_rule t = Raise (KeyError "rule_id")
  | Some id =>
      if emits_block t
      then exists d, compile_rule t = Ok (Some d) /\ d_rule_id d = id
      else compile_rule t = Ok None
  end.
Proof.
  unfold compile_rule, emits_block.
  destruct (t_rule_id t) as [id|]; [|reflexivity].
  destruct (get (t_elements t) []) as [|p rest]; [reflexivity|].
  cbn [is_empty negb andb].
  destruct (get (t_type t) "" =? "range_check");
    [cbn [orb]; eexists; split; reflexivity|].
  destruct (get (t_type t) "" =? "categorical_check");
    [cbn [orb]; eexists; split; reflexivity|].
  destruct (get (t_type t) "" =? "not_null_check");
    [cbn [orb]; eexists; split; reflexivity|].
  cbn [orb].
  destruct ((get (t_type t) "" =? "cross_field_check")
            && (2 <=? List.length (p :: rest))%nat);
    [eexists; split; reflexivity | reflexivity].
Qed.

Lemma emit_blocks_raises (rule_templates : list RuleTemplate) :
  forall t, In t rule_templates -> t_rule_id t = None ->
            emit_blocks rule_templates = Raise (KeyError "rule_id").
Proof.
  induction rule_templates as [|a ts IH]; intros t Hin Hid; [easy|].
  simpl. pose proof (compile_rule_cases a) as Ha.
  destruct (t_rule_id a) as [aid|] eqn:Haid.
  - destruct Hin as [->|Hin]; [congruence|].
    rewrite (IH t Hin Hid).
    destruct (emits_block a).
    + destruct Ha as (d & -> & _). reflexivity.
    + now rewrite Ha.
  - now rewrite Ha.
Qed.

Lemma emit_blocks_returns (rule_templates : list RuleTemplate) :
  forallb has_rule_id rule_templates = true ->
  exists rules_code, emit_blocks rule_templates = Ok rules_code.
Proof.
  induction rule_templates as [|a ts IH]; simpl; intros H;
    [eexists; reflexivity|].
  apply andb_true_iff in H as [Ha Hts].
  destruct (IH Hts) as (code & ->).
  pose proof (compile_rule_cases a) as Hc. unfold has_rule_id in Ha.
  destruct (t_rule_id a); [|discriminate].
  destruct (emits_block a).
  - destruct Hc as (d & -> & _). eexists; reflexivity.
  - rewrite Hc. eexists; reflexivity.
Qed.

Lemma forallb_has_rule_id_false (rule_templates : list RuleTemplate) :
  forallb has_rule_id rule_templates = false ->
  exists t, In t rule_templates /\ t_rule_id t = None.
Proof.
  induction rule_templates as [|a ts IH]; simpl; [discriminate|].
  intros H. apply andb_false_iff in H as [Ha|Hts].
  - exists a. split; [now left|]. unfold has_rule_id in Ha.
    now destruct (t_rule_id a).
  - destruct (IH Hts) as (t & Hin & Ht). exists t. split; [now right|exact Ht].
Qed.

(** The call never returns: the loop raises on a template without a rule
    id, and the closing format raises otherwise. *)
Lemma generate_outcome (rule_templates : list RuleTemplate) :
  generate_pandas_validation rule_templates
  = Raise (if forallb has_rule_id rule_templates
           then format_error else KeyError "rule_id").
Proof.
  unfold generate_pandas_validation.
  destruct (forallb has_rule_id rule_templates) eqn:H.
  - destruct (emit_blocks_returns _ H) as (code & ->). reflexivity.
  - destruct (forallb_has_rule_id_false _ H) as (t & Hin & Ht).
    now rewrite (emit_blocks_raises _ _ Hin Ht).
Qed.

Lemma emit_blocks_skips (pre : list RuleTemplate) :
  forall t post,
    compile_rule t = Ok None ->
    emit_blocks (pre ++ t :: post) = emit_blocks (pre ++ post).
Proof.
  induction pre as [|a pre IH]; intros t post Ht; simpl.
  - rewrite Ht. simpl. now destruct (emit_blocks post).
  - now rewrite (IH t post Ht).
Qed.

Lemma generate_skips (pre : list RuleTemplate) :
  forall t post,
    compile_rule t = Ok None ->
    generate_pandas_validation (pre ++ t :: post)
    = generate_pandas_validation (pre ++ post).
Proof.
  intros t post Ht. unfold generate_pandas_validation.
  now rewrite (emit_blocks_skips pre t post Ht).
Qed.


Section StageThree.
Variable llm : string -> result string.
Variable json_loads : string -> option json.
Variable format_prompt :
  string -> RuleTemplate -> list (dict cell) -> RuleEntry -> result string.
Variable py_exec : string -> exec_result.
Variable format_value : json -> string.
Variable import_and_validate : string -> string -> DataFrame -> result Results.

(** With templates, a run of the pipeline ends at its third step. *)
Lemma run_with_templates (now : string) (rule_templates : list RuleTemplate)
  (st : store) (data : loc) :
  rule_templates <> [] ->
  run_end_to_end_pipeline llm json_loads format_prompt py_exec format_value
    import_and_validate now rule_templates st data
  = Raise (if forallb has_rule_id rule_templates
           then format_error else KeyError "rule_id").
Proof.
  intros Hne. unfold run_end_to_end_pipeline, stage_validation_code.
  destruct rule_templates as [|t ts]; [congruence|].
  cbn [is_empty]. now rewrite generate_outcome.
Qed.

(** Without templates every step returns at its guard. *)
Lemma run_without_templates (now : string) (st : store) (data : loc) :
  run_end_to_end_pipeline llm json_loads format_prompt py_exec format_value
    import_and_validate now [] st data
  = Ok {| b_store := st;
          b_remediated_data := None;
          b_validation_results := None;
          b_remediation_plans := None;
          b_applied_remediations := [] |}.
Proof. reflexivity. Qed.

End StageThree.

(** ** Range and categorical rules *)

(** C2.  The loop emits a block for a range_check template that has a
    rule id and a first element, with that element as the column and two
    bound texts; the call that was to return the module then raises
    KeyError, alone or in any batch, and so does a run of the pipeline.  No
    range predicate is ever obtained from the code. *)
Theorem range_check_block_never_becomes_a_module
  (t : RuleTemplate) (id p : string) (rest : list string) :
  t_rule_id t = Some id ->
  t_type t = Some "range_check" ->
  t_elements t = Some (p :: rest) ->
  (exists lower_bound upper_bound,
      compile_rule t
      = Ok (Some {| d_rule_id := id;
                    d_description := get (t_description t) "";
                    d_severity := get (t_severity t) "warning";
                    d_check := RangeCheck p lower_bound upper_bound |}))
  /\ generate_pandas_validation [t] = Raise format_error
  /\ (forall rule_templates,
         In t rule_templates ->
         ~ exists code, generate_pandas_validation rule_templates = Ok code)
  /\ (forall llm json_loads format_prompt py_exec format_value
             import_and_validate now st data,
         run_end_to_end_pipeline llm json_loads format_prompt py_exec
           format_value import_and_validate now [t] st data
         = Raise format_error).
Proof.
  intros Hid Hty Hel.
  assert (Hh : forallb has_rule_id [t] = true).
  { simpl. unfold has_rule_id. now rewrite Hid. }
  split; [|split; [|split]].
  - unfold compile_rule. rewrite Hid, Hty, Hel. simpl.
    eexists. eexists. reflexivity.
  - now rewrite generate_outcome, Hh.
  - intros ts _ (code & H). rewrite generate_outcome in H. discriminate.
  - intros. rewrite run_with_templates by discriminate. now rewrite Hh.
Qed.

Lemma range_check_block_never_becomes_a_module_witness :
  t_rule_id amount_rule = Some "R1"
  /\ t_type amount_rule = Some "range_check"
  /\ t_elements amount_rule = Some ["amount"]
  /\ compile_rule amount_rule
     = Ok (Some {| d_rule_id := "R1";
                   d_description := "sample rule";
                   d_severity := "high";
                   d_check := RangeCheck "amount" "10" "20" |})
  /\ generate_pandas_validation [amount_rule] = Raise format_error
  /\ run_end_to_end_pipeline sample_llm sample_json_loads
       sample_format_prompt sample_exec sample_format_value sample_import
       sample_time [amount_rule] [amount_frame] 0
     = Raise format_error.
Proof.
  do 4 (split; [reflexivity|]).
  destruct (@range_check_block_never_becomes_a_module amount_rule "R1"
              "amount" [] eq_refl eq_refl eq_refl) as (_ & Hg & _ & Hrun).
  split; [exact Hg|]. apply Hrun.
Defined.

(** C3.  The loop emits a block for a categorical_check template that has
    a rule id and a first element, with that element as the column and the
    text of a value list; the call that was to return the module then
    raises KeyError, alone or in any batch, and so does a run of the
    pipeline.  No membership predicate is ever obtained from the code. *)
Theorem categorical_check_block_never_becomes_a_module
  (t : RuleTemplate) (id p : string) (rest : list string) :
  t_rule_id t = Some id ->
  t_type t = Some "categorical_check" ->
  t_elements t = Some (p :: rest) ->
  (exists valid_values,
      compile_rule t
      = Ok (Some {| d_rule_id := id;
                    d_description := get (t_description t) "";
                    d_severity := get (t_severity t) "warning";
                    d_check := CategoricalCheck p valid_values |}))
  /\ generate_pandas_validation [t] = Raise format_error
  /\ (forall rule_templates,
         In t rule_templates ->
         ~ exists code, generate_pandas_validation rule_templates = Ok code)
  /\ (forall llm json_loads format_prompt py_exec format_value
             import_and_validate now st data,
         run_end_to_end_pipeline llm json_loads format_prompt py_exec
           format_value import_and_validate now [t] st data
         = Raise format_error).
Proof.
  intros Hid Hty Hel.
  assert (Hh : forallb has_rule_id [t] = true).
  { simpl. unfold has_rule_id. now rewrite Hid. }
  split; [|split; [|split]].
  - unfold compile_rule. rewrite Hid, Hty, Hel. simpl.
    eexists. reflexivity.
  - now rewrite generate_outcome, Hh.
  - intros ts _ (code & H). rewrite generate_outcome in H. discriminate.
  - intros. rewrite run_with_templates by discriminate. now rewrite Hh.
Qed.

Lemma categorical_check_block_never_becomes_a_module_witness :
  t_rule_id status_rule = Some "C1"
  /\ t_type status_rule = Some "categorical_check"
  /\ t_elements status_rule = Some ["status"]
  /\ compile_rule status_rule
     = Ok (Some {| d_rule_id := "C1";
                   d_description := "sample rule";
                   d_severity := "high";
                   d_check := CategoricalCheck "status" "['A', 'B']" |})
  /\ generate_pandas_validation [status_rule] = Raise format_error
  /\ run_end_to_end_pipeline sample_llm sample_json_loads
       sample_format_prompt sample_exec sample_format_value sample_import
       sample_time [status_rule] [status_frame] 0
     = Raise format_error.
Proof.
  do 4 (split; [reflexivity|]).
  destruct (@categorical_check_block_never_becomes_a_module status_rule "C1"
              "status" [] eq_refl eq_refl eq_refl) as (_ & Hg & _ & Hrun).
  split; [exact Hg|]. apply Hrun.
Defined.

Example format_error_text :
  str_of_exn format_error
  = String sq (String backslash "n        ")
    ++ String dq "summary" ++ String dq (String sq "").
Proof. reflexivity. Qed.

(** ** Which rules reach the results *)

Lemma run_rule_results (df : DataFrame) (results : Results) (r : Rule) :
  rule_results (run_rule df results r)
  = dict_set (rule_id r) (entry_of df r) (rule_results results).
Proof.
  unfold run_rule, entry_of.
  destruct (validation_function r df) as [rr|e]; [destruct (passed rr)|];
    reflexivity.
Qed.






(** ** Malformed templates *)

(** C5, as the code has it.  A template without [rule_id] makes the call
    raise [KeyError] from the loop, whatever the other templates are.  A
    template that has a rule id and missing or empty [elements] is not
    rejected: its iteration raises nothing and emits no block, and the
    loop and the call end as they do on the batch without it. *)
Theorem malformed_templates_raise_KeyError_or_are_skipped :
  (forall (rule_templates : list RuleTemplate) (t : RuleTemplate),
      In t rule_templates -> t_rule_id t = None ->
      generate_pandas_validation rule_templates = Raise (KeyError "rule_id"))
  /\ (forall (pre post : list RuleTemplate) (t : RuleTemplate) (id : string),
         t_rule_id t = Some id ->
         get (t_elements t) [] = [] ->
         compile_rule t = Ok None
         /\ emit_blocks (pre ++ t :: post) = emit_blocks (pre ++ post)
         /\ generate_pandas_validation (pre ++ t :: post)
            = generate_pandas_validation (pre ++ post)).
Proof.
  split.
  - intros ts t Hin Hid. unfold generate_pandas_validation.
    now rewrite (emit_blocks_raises _ _ Hin Hid).
  - intros pre post t id Hid Hel.
    assert (Hc : compile_rule t = Ok None).
    { unfold compile_rule. now rewrite Hid, Hel. }
    split; [assumption|].
    assert (He : emit_blocks (pre ++ t :: post) = emit_blocks (pre ++ post))
      by now apply emit_blocks_skips.
    split; [exact He|]. unfold generate_pandas_validation. now rewrite He.
Qed.

Lemma malformed_templates_raise_KeyError_or_are_skipped_witness :
  (In rule_without_id [amount_rule; rule_without_id]
   /\ t_rule_id rule_without_id = None
   /\ generate_pandas_validation [amount_rule; rule_without_id]
      = Raise (Exn "KeyError" "'rule_id'"))
  /\ (t_rule_id rule_without_elements = Some "E1"
      /\ get (t_elements rule_without_elements) [] = []
      /\ compile_rule rule_without_elements = Ok None
      /\ emit_blocks ([amount_rule] ++ rule_without_elements :: [status_rule])
         = emit_blocks ([amount_rule] ++ [status_rule])
      /\ generate_pandas_validation
           ([amount_rule] ++ rule_without_elements :: [status_rule])
         = generate_pandas_validation ([amount_rule] ++ [status_rule])).
Proof.
  split.
  - split; [right; left; reflexivity | split; [reflexivity|]].
    exact (proj1 malformed_templates_raise_KeyError_or_are_skipped
             [amount_rule; rule_without_id] rule_without_id
             (or_intror (or_introl eq_refl)) eq_refl).
  - split; [reflexivity | split; [reflexivity|]].
    exact (proj2 malformed_templates_raise_KeyError_or_are_skipped
             [amount_rule] [status_rule] rule_without_elements "E1"
             eq_refl eq_refl).
Defined.

(** C5 as stated fails on the code: no call raises MalformedRuleError.  The
    template without a rule id raises KeyError, and the template without
    elements changes nothing: its iteration returns, and the call ends as
    it does on the empty batch. *)
Lemma malformed_templates_counterexample :
  generate_pandas_validation [rule_without_id]
  = Raise (Exn "KeyError" "'rule_id'")
  /\ ~ (exists msg, generate_pandas_validation [rule_without_id]
                    = Raise (Exn "MalformedRuleError" msg))
  /\ compile_rule rule_without_elements = Ok None
  /\ generate_pandas_validation [rule_without_elements]
     = generate_pandas_validation []
  /\ ~ (exists msg, generate_pandas_validation [rule_without_elements]
                    = Raise (Exn "MalformedRuleError" msg)).
Proof.
  split; [reflexivity|]. split; [intros (msg & H); discriminate H|].
  split; [reflexivity|]. split; [reflexivity|].
  intros (msg & H); discriminate H.
Qed.

(** ** A categorical rule without a membership set *)

(** C6, as the code has it.  For a categorical_check template whose logic
    has no [IN], the loop splices the text of the empty list as the value
    list.  The block is the one an explicit [IN []] gives: nothing in it
    records that the logic could not be read.  The iteration raises
    nothing of its own; the call ends as on every batch. *)
Theorem categorical_without_IN_compiles_to_the_empty_list
  (t : RuleTemplate) (id p : string) (rest : list string) :
  t_rule_id t = Some id ->
  t_type t = Some "categorical_check" ->
  t_elements t = Some (p :: rest) ->
  PyStr.contains "IN" (get (t_logic t) "") = false ->
  compile_rule t
  = Ok (Some {| d_rule_id := id;
                d_description := get (t_description t) "";
                d_severity := get (t_severity t) "warning";
                d_check := CategoricalCheck p "[]" |})
  /\ compile_rule t = compile_rule (with_logic "IN []" t)
  /\ emit_blocks [t]
     = Ok [{| d_rule_id := id;
              d_description := get (t_description t) "";
              d_severity := get (t_severity t) "warning";
              d_check := CategoricalCheck p "[]" |}]
  /\ generate_pandas_validation [t] = Raise format_error.
Proof.
  intros Hid Hty Hel Hin.
  assert (Hc : compile_rule t
               = Ok (Some {| d_rule_id := id;
                             d_description := get (t_description t) "";
                             d_severity := get (t_severity t) "warning";
                             d_check := CategoricalCheck p "[]" |})).
  { unfold compile_rule. rewrite Hid, Hty, Hel, Hin. reflexivity. }
  split; [exact Hc|]. split; [|split].
  - rewrite Hc. unfold compile_rule, with_logic. simpl.
    rewrite Hid, Hty, Hel. reflexivity.
  - simpl. now rewrite Hc.
  - rewrite generate_outcome. simpl. unfold has_rule_id. now rewrite Hid.
Qed.

Lemma categorical_without_IN_compiles_to_the_empty_list_witness :
  t_rule_id status_rule_without_set = Some "C2"
  /\ t_type status_rule_without_set = Some "categorical_check"
  /\ t_elements status_rule_without_set = Some ["status"]
  /\ PyStr.contains "IN" (get (t_logic status_rule_without_set) "") = false
  /\ compile_rule status_rule_without_set
     = Ok (Some {| d_rule_id := "C2";
                   d_description := "sample rule";
                   d_severity := "high";
                   d_check := CategoricalCheck "status" "[]" |})
  /\ compile_rule status_rule_without_set
     = compile_rule (with_logic "IN []" status_rule_without_set)
  /\ emit_blocks [status_rule_without_set]
     = Ok [{| d_rule_id := "C2";
              d_description := "sample rule";
              d_severity := "high";
              d_check := CategoricalCheck "status" "[]" |}]
  /\ generate_pandas_validation [status_rule_without_set]
     = Raise format_error.
Proof.
  do 4 (split; [reflexivity|]).
  exact (@categorical_without_IN_compiles_to_the_empty_list
           status_rule_without_set "C2" "status" [] eq_refl eq_refl eq_refl
           eq_refl).
Defined.

(** C6 as stated fails on the code: the block compiled from a logic string
    without [IN] tests membership in the empty list, which no value has,
    and carries the template's description and severity and nothing else:
    it is the block of the same template with [IN []] spelled out. *)
Lemma categorical_without_IN_counterexample :
  compile_rule status_rule_without_set
  = Ok (Some {| d_rule_id := "C2";
                d_description := "sample rule";
                d_severity := "high";
                d_check := CategoricalCheck "status" "[]" |})
  /\ compile_rule status_rule_without_set
     = compile_rule (with_logic "status IN []" status_rule_without_set)
  /\ ~ (exists code,
          generate_pandas_validation [status_rule_without_set] = Ok code).
Proof.
  split; [reflexivity|]. split; [reflexivity|].
  intros (code & H). discriminate H.
Qed.

(** ** The heap under the remediation executor *)

Lemma assign_length (st : store) :
  forall l d, List.length (assign st l d) = List.length st.
Proof.
  induction st as [|x st IH]; intros [|l] d; simpl; auto.
Qed.

Lemma deref_assign_other (st : store) :
  forall l l' d, l' <> l -> deref (assign st l d) l' = deref st l'.
Proof.
  unfold deref.
  induction st as [|x st IH]; intros [|l] [|l'] d Hne; simpl; auto;
    try congruence.
Qed.

Lemma deref_alloc_old (st : store) (d : DataFrame) (l : loc) :
  (l < List.length st)%nat -> deref (fst (alloc st d)) l = deref st l.
Proof. intros Hl. unfold deref, alloc. simpl. now apply app_nth1. Qed.

Lemma deref_alloc_new (st : store) (d : DataFrame) :
  deref (fst (alloc st d)) (snd (alloc st d)) = d.
Proof.
  unfold deref, alloc. simpl.
  rewrite app_nth2 by lia. now rewrite Nat.sub_diag.
Qed.

Section ExecutorFacts.
Variable llm : string -> result string.
Variable py_exec : string -> exec_result.
Variable format_value : json -> string.

Lemma rebind_frame (n : nat) (st : store) (cur : binding) (r : returned) :
  not_below n cur -> (n <= List.length st)%nat ->
  let '(st1, b) := rebind st cur r in
  not_below n b /\ (n <= List.length st1)%nat
  /\ (forall l0, (l0 < n)%nat -> deref st1 l0 = deref st l0).
Proof.
  intros Hcur Hlen. destruct r as [|d|v]; simpl; try (repeat split; auto).
  - rewrite length_app. lia.
  - intros l0 Hl0. unfold deref. apply app_nth1. lia.
Qed.

(** One attempt leaves every object below [n] alone when the working
    value names none of them, and appends a record for its rule. *)
Lemma attempt_frame (n : nat) (st : store) (cur : binding) (rule_id : string)
  (plan : Plan) :
  not_below n cur -> (n <= List.length st)%nat ->
  let '(st1, b, r) := attempt llm py_exec format_value st cur rule_id plan in
  not_below n b /\ (n <= List.length st1)%nat
  /\ (forall l0, (l0 < n)%nat -> deref st1 l0 = deref st l0)
  /\ a_rule_id r = rule_id.
Proof.
  intros Hcur Hlen. unfold attempt.
  destruct (llm (automation_prompt format_value plan)) as [code|e];
    [|repeat split; auto].
  destruct (py_exec code) as [e| |f]; try (repeat split; auto).
  destruct cur as [l|v].
  - simpl in Hcur.
    assert (Hlen1 : (n <= List.length
                            (assign st l (arg_after (on_frame f (deref st l)))))%nat)
      by now rewrite assign_length.
    destruct (outcome (on_frame f (deref st l))) as [r|e].
    + pose proof (@rebind_frame n _ (FrameAt l) r Hcur Hlen1) as Hr.
      destruct (rebind (assign st l (arg_after (on_frame f (deref st l))))
                       (FrameAt l) r) as [st2 b].
      destruct Hr as (Hb & Hl2 & Hfr). repeat split; auto.
      intros l0 Hl0. rewrite Hfr by assumption.
      apply deref_assign_other. lia.
    + repeat split; auto. intros l0 Hl0. apply deref_assign_other. lia.
  - destruct (on_value f v) as [r|e]; [|repeat split; auto].
    pose proof (@rebind_frame n st (NotAFrame v) r Hcur Hlen) as Hr.
    destruct (rebind st (NotAFrame v) r) as [st2 b].
    destruct Hr as (Hb & Hl2 & Hfr). repeat split; auto.
Qed.

Lemma apply_loop_frame (n : nat) (plans : dict Plan) :
  forall st cur acc,
    not_below n cur -> (n <= List.length st)%nat ->
    let '(st1, b, recs) := apply_loop llm py_exec format_value st cur plans acc in
    not_below n b
    /\ (n <= List.length st1)%nat
    /\ (forall l0, (l0 < n)%nat -> deref st1 l0 = deref st l0).
Proof.
  induction plans as [|[rule_id plan] plans IH]; intros st cur acc Hcur Hlen;
    simpl; [auto|].
  destruct (negb (truthy (get (dict_get "can_automate" plan) (JBool false)))).
  - now apply IH.
  - pose proof (@attempt_frame n st cur rule_id plan Hcur Hlen) as Ha.
    destruct (attempt llm py_exec format_value st cur rule_id plan)
      as [[st1 l] r].
    destruct Ha as (Hl & Hlen1 & Hfr & _).
    specialize (IH st1 l (acc ++ [r])%list Hl Hlen1).
    destruct (apply_loop llm py_exec format_value st1 l plans
                (acc ++ [r])%list) as [[st2 l2] recs].
    destruct IH as (Hl2 & Hlen2 & Hfr2). split; [assumption|].
    split; [assumption|].
    intros l0 Hl0. now rewrite Hfr2, Hfr.
Qed.

Lemma apply_loop_all_manual (plans : dict Plan) :
  Forall (fun kp => dict_get "can_automate" (snd kp) = Some (JBool false))
         plans ->
  forall st cur acc, apply_loop llm py_exec format_value st cur plans acc = (st, cur, acc).
Proof.
  induction 1 as [|[rule_id plan] plans Hp _ IH]; intros st cur acc; simpl;
    [reflexivity|].
  simpl in Hp. rewrite Hp. simpl. apply IH.
Qed.

Lemma attempt_record (st : store) (cur : binding) (rule_id : string)
  (plan : Plan) :
  let '(_, _, r) := attempt llm py_exec format_value st cur rule_id plan in
  a_rule_id r = rule_id /\ record_shape r.
Proof.
  assert (Hf : forall msg, record_shape (failed rule_id msg)).
  { intros msg. right. repeat split. discriminate. }
  assert (Ha : record_shape (applied rule_id plan)).
  { left. repeat split. discriminate. }
  unfold attempt.
  destruct (llm (automation_prompt format_value plan)) as [code|e];
    [|split; [reflexivity | apply Hf]].
  destruct (py_exec code) as [e| |f]; try (split; [reflexivity | apply Hf]).
  destruct cur as [l|v].
  - destruct (outcome (on_frame f (deref st l))) as [r|e];
      [|split; [reflexivity | apply Hf]].
    destruct (rebind _ _ r). split; [reflexivity | apply Ha].
  - destruct (on_value f v) as [r|e]; [|split; [reflexivity | apply Hf]].
    destruct (rebind _ _ r). split; [reflexivity | apply Ha].
Qed.

Lemma apply_loop_records (plans : dict Plan) :
  forall st cur acc,
    let '(_, _, recs) := apply_loop llm py_exec format_value st cur plans acc in
    exists new,
      recs = (acc ++ new)%list
      /\ map a_rule_id new = map fst (filter automated plans)
      /\ Forall record_shape new.
Proof.
  induction plans as [|[rule_id plan] plans IH]; intros st cur acc;
    cbn [apply_loop].
  - exists []. rewrite app_nil_r. repeat split. constructor.
  - cbn [filter]. unfold automated at 1. cbn [snd].
    destruct (truthy (get (dict_get "can_automate" plan) (JBool false)));
      cbn [negb].
    + pose proof (attempt_record st cur rule_id plan) as Ha.
      destruct (attempt llm py_exec format_value st cur rule_id plan)
        as [[st1 l] r].
      destruct Ha as (Hid & Hshape).
      specialize (IH st1 l (acc ++ [r])%list).
      destruct (apply_loop llm py_exec format_value st1 l plans
                  (acc ++ [r])%list) as [[st2 l2] recs].
      destruct IH as (new & -> & Hids & Hall).
      exists (r :: new). rewrite <- app_assoc. split; [reflexivity|].
      split; [simpl; now rewrite Hid, Hids | now constructor].
    + apply IH.
Qed.

Lemma apply_loop_app (p1 p2 : dict Plan) :
  forall st cur acc,
    apply_loop llm py_exec format_value st cur (p1 ++ p2)%list acc
    = let '(st1, l1, acc1) :=
        apply_loop llm py_exec format_value st cur p1 acc in
      apply_loop llm py_exec format_value st1 l1 p2 acc1.
Proof.
  induction p1 as [|[rule_id plan] p1 IH]; intros st cur acc;
    [reflexivity|].
  cbn [app apply_loop].
  destruct (negb (truthy (get (dict_get "can_automate" plan) (JBool false))));
    [apply IH|].
  destruct (attempt llm py_exec format_value st cur rule_id plan)
    as [[st1 l] r].
  apply IH.
Qed.


End ExecutorFacts.

(** C8.  When every plan has [can_automate = false], the executor returns a
    dataset equal to the input and no applied record at all.  In every
    case it works on a new object: what it returns is not one of the
    caller's objects, and every object the caller had, the original dataset
    included, holds afterwards what it held before. *)
Theorem apply_without_automation_returns_the_input
  (llm : string -> result string) (py_exec : string -> exec_result)
  (format_value : json -> string)
  (st : store) (data : loc) (plans : dict Plan)
  (st' : store) (remediated_data : binding)
  (applied_remediations : list AppliedRecord) :
  apply_automatic_remediations llm py_exec format_value st data plans
  = (st', remediated_data, applied_remediations) ->
  (forall l, remediated_data = FrameAt l -> (List.length st <= l)%nat)
  /\ (forall l, (l < List.length st)%nat -> deref st' l = deref st l)
  /\ (Forall (fun kp => dict_get "can_automate" (snd kp) = Some (JBool false))
             plans ->
      remediated_data = FrameAt (List.length st)
      /\ deref st' (List.length st) = deref st data
      /\ applied_remediations = []
      /\ ~ (exists r, In r applied_remediations /\ a_status r = "applied")).
Proof.
  unfold apply_automatic_remediations. intros H.
  pose proof (deref_alloc_new st (deref st data)) as Hnew.
  pose proof (fun l => @deref_alloc_old st (deref st data) l) as Hold.
  unfold alloc in *. simpl in *.
  pose proof (@apply_loop_frame llm py_exec format_value (List.length st)
                plans (st ++ [deref st data])%list
                (FrameAt (List.length st)) []
                (Nat.le_refl _)) as Hfr.
  rewrite length_app in Hfr. simpl in Hfr. specialize (Hfr ltac:(lia)).
  rewrite H in Hfr. destruct Hfr as (Hl & _ & Hfr).
  split; [intros l ->; exact Hl|]. split.
  - intros l Hlt. rewrite Hfr by assumption. now apply Hold.
  - intros Hall.
    rewrite (@apply_loop_all_manual llm py_exec format_value plans Hall) in H.
    injection H as <- <- <-. split; [reflexivity|]. split; [exact Hnew|].
    split; [reflexivity|].
    intros (r & [] & _).
Qed.

Lemma apply_without_automation_returns_the_input_witness :
  apply_automatic_remediations sample_llm sample_exec sample_format_value
    [amount_frame] 0 [("R1", manual_plan)]
  = ([amount_frame; amount_frame], FrameAt 1, [])
  /\ Forall (fun kp => dict_get "can_automate" (snd kp) = Some (JBool false))
            [("R1", manual_plan)]
  /\ (forall l, FrameAt 1 = FrameAt l -> (1 <= l)%nat)
  /\ (forall l, (l < 1)%nat ->
                deref [amount_frame; amount_frame] l = deref [amount_frame] l)
  /\ FrameAt 1 = FrameAt 1
  /\ deref [amount_frame; amount_frame] 1 = deref [amount_frame] 0
  /\ @nil AppliedRecord = []
  /\ ~ (exists r, In r (@nil AppliedRecord) /\ a_status r = "applied").
Proof.
  split; [reflexivity|].
  assert (Hall : Forall (fun kp => dict_get "can_automate" (snd kp)
                                   = Some (JBool false))
                        [("R1", manual_plan)])
    by (constructor; [reflexivity | constructor]).
  split; [exact Hall|].
  destruct (@apply_without_automation_returns_the_input
              sample_llm sample_exec sample_format_value
              [amount_frame] 0 [("R1", manual_plan)]
              [amount_frame; amount_frame] (FrameAt 1) [] eq_refl)
    as (H1 & H2 & H3).
  split; [exact H1|]. split; [exact H2|]. exact (H3 Hall).
Defined.

(** ** Placeholders in a decoded plan *)






Example canned_plan_is_attempted :
  _generate_single_remediation sample_llm sample_json_loads
    sample_format_prompt "R1" amount_rule
    (entry_of amount_frame raising_rule) [] = Ok canned_plan.
Proof. reflexivity. Qed.

(** A transformation without a return statement: the copy is changed, the
    name is rebound to [None], and the next plan's call is handed that. *)
Example transformation_without_return :
  apply_automatic_remediations sample_llm
    (fun _ => ExecCallable blank_amounts_no_return) sample_format_value
    [amount_frame] 0 [("R1", canned_plan); ("R2", canned_plan)]
  = ([amount_frame;
      {| df_index := [0; 1; 2; 3]%Z;
         df_columns := [("amount", [CNull; CNull; CNull; CNull])] |}],
     NotAFrame JNull,
     [applied "R1" canned_plan;
      failed "R2" "'NoneType' object has no attribute 'columns'"]).
Proof. reflexivity. Qed.

(** ** Which failed rules get a plan *)

Lemma dict_get_in_nodup (V : Type) (d : dict V) (k : string) (v : V) :
  NoDup (keys d) -> In (k, v) d -> dict_get k d = Some v.
Proof.
  induction d as [|[k0 v0] d IH]; simpl; intros Hnd Hin; [easy|].
  inversion Hnd as [|? ? Hnotin Hnd']; subst.
  destruct Hin as [[= -> ->]|Hin].
  - now rewrite String.eqb_refl.
  - destruct (String.eqb k k0) eqn:E.
    + apply String.eqb_eq in E. subst k0. exfalso. apply Hnotin.
      unfold keys. apply in_map_iff. now exists (k, v).
    + now apply IH.
Qed.




Section SynthesizerFacts.
Variable llm : string -> result string.
Variable json_loads : string -> option json.
Variable format_prompt :
  string -> RuleTemplate -> list (dict cell) -> RuleEntry -> result string.




End SynthesizerFacts.




(** A template the compile loop accepts through its defaults makes the
    synthesizer raise: the prompt template reads its description. *)
Example bare_template_stops_the_synthesizer :
  (exists d, compile_rule bare_rule = Ok (Some d))
  /\ generate_remediation_recommendations sample_llm sample_json_loads
       (prompt_format sample_render) sample_results amount_frame
       [bare_rule; status_rule]
     = Raise (Exn "KeyError" "'description'").
Proof. split; [eexists|]; reflexivity. Qed.

(** ** Two runs of the pipeline *)



(* ------------------------------------------------------------------ *)
(** * Further properties of the embedded code *)

(** ** The compile loop *)

Lemma compile_rule_fields (t : RuleTemplate) (d : RuleDef) :
  compile_rule t = Ok (Some d) ->
  emits_block t = true
  /\ t_rule_id t = Some (d_rule_id d)
  /\ d_description d = get (t_description t) ""
  /\ d_severity d = get (t_severity t) "warning".
Proof.
  intros H. pose proof (compile_rule_cases t) as Hc.
  destruct (t_rule_id t) as [id|] eqn:Hid; [|rewrite Hc in H; discriminate].
  destruct (emits_block t); [|rewrite Hc in H; discriminate].
  split; [reflexivity|].
  unfold compile_rule in H. rewrite Hid in H.
  destruct (get (t_elements t) []) as [|p rest]; [discriminate|].
  repeat match type of H with
         | (if ?c then _ else _) = _ => destruct c
         end;
    try discriminate; injection H as <-; simpl; auto.
Qed.

Lemma emit_blocks_emitted (rule_templates : list RuleTemplate) :
  forall code,
    emit_blocks rule_templates = Ok code ->
    map (fun d => (d_rule_id d, d_description d, d_severity d)) code
    = emitted rule_templates.
Proof.
  unfold emitted.
  induction rule_templates as [|t ts IH]; simpl; intros code H.
  - now injection H as <-.
  - destruct (compile_rule t) as [[d|]|e] eqn:Hc; [| |discriminate];
      simpl in H;
      (destruct (emit_blocks ts) as [rs|e] eqn:Hts;
       [|discriminate]); simpl in H; injection H as <-;
      specialize (IH rs eq_refl).
    + destruct (compile_rule_fields _ Hc) as (Hem & Hid & Hde & Hse).
      rewrite Hem. simpl. rewrite IH, Hid, Hde, Hse. reflexivity.
    + pose proof (compile_rule_cases t) as Hcases.
      destruct (t_rule_id t); [|rewrite Hcases in Hc; discriminate].
      destruct (emits_block t); [|assumption].
      destruct Hcases as (d & Hd & _). rewrite Hd in Hc. discriminate.
Qed.

(** X1.  When the loop over the templates ends, [rules_code] holds the
    blocks in template order, one for each template that has non-empty
    elements and a compilable type, each carrying the template's rule id,
    its description unchanged (empty when absent) and its severity
    ("warning" when absent). *)
Theorem loop_keeps_template_order
  (rule_templates : list RuleTemplate) (rules_code : list RuleDef) :
  emit_blocks rule_templates = Ok rules_code ->
  map (fun d => (d_rule_id d, d_description d, d_severity d)) rules_code
  = emitted rule_templates
  /\ (List.length rules_code <= List.length rule_templates)%nat.
Proof.
  intros H. pose proof (emit_blocks_emitted _ H) as He. split; [exact He|].
  apply (f_equal (@List.length _)) in He. rewrite length_map in He.
  rewrite He. unfold emitted. rewrite length_map. apply filter_length_le.
Qed.

Lemma loop_keeps_template_order_witness :
  emit_blocks [amount_rule; rule_without_elements; status_rule]
  = Ok [{| d_rule_id := "R1"; d_description := "sample rule";
           d_severity := "high";
           d_check := RangeCheck "amount" "10" "20" |};
        {| d_rule_id := "C1"; d_description := "sample rule";
           d_severity := "high";
           d_check := CategoricalCheck "status" "['A', 'B']" |}]
  /\ emitted [amount_rule; rule_without_elements; status_rule]
     = [("R1", "sample rule", "high"); ("C1", "sample rule", "high")]
  /\ map (fun d => (d_rule_id d, d_description d, d_severity d))
         [{| d_rule_id := "R1"; d_description := "sample rule";
             d_severity := "high";
             d_check := RangeCheck "amount" "10" "20" |};
          {| d_rule_id := "C1"; d_description := "sample rule";
             d_severity := "high";
             d_check := CategoricalCheck "status" "['A', 'B']" |}]
     = emitted [amount_rule; rule_without_elements; status_rule]
  /\ (2 <= 3)%nat.
Proof.
  split; [reflexivity | split; [reflexivity|]].
  exact (@loop_keeps_template_order
           [amount_rule; rule_without_elements; status_rule] _ eq_refl).
Defined.

(** X2.  [generate_pandas_validation] returns on no list of templates.  It
    raises [KeyError('rule_id')], from the loop, exactly when some template
    has no rule id; otherwise the loop completes and the closing format
    raises its KeyError, the empty list included. *)
Theorem generate_pandas_validation_never_returns
  (rule_templates : list RuleTemplate) :
  ((exists t, In t rule_templates /\ t_rule_id t = None)
   <-> generate_pandas_validation rule_templates = Raise (KeyError "rule_id"))
  /\ ((forall t, In t rule_templates -> t_rule_id t <> None)
      <-> generate_pandas_validation rule_templates = Raise format_error)
  /\ ((forall t, In t rule_templates -> t_rule_id t <> None)
      <-> exists rules_code, emit_blocks rule_templates = Ok rules_code)
  /\ ~ (exists code, generate_pandas_validation rule_templates = Ok code).
Proof.
  rewrite generate_outcome.
  assert (Hall : forallb has_rule_id rule_templates = true
                 <-> forall t, In t rule_templates -> t_rule_id t <> None).
  { rewrite forallb_forall. unfold has_rule_id.
    split; intros H t Ht; specialize (H t Ht);
      destruct (t_rule_id t); congruence. }
  destruct (forallb has_rule_id rule_templates) eqn:Hb.
  - assert (Hids : forall t, In t rule_templates -> t_rule_id t <> None)
      by now apply Hall.
    split; [|split; [|split]].
    + split; [intros (t & Hin & Hn); now apply Hids in Hin | discriminate].
    + split; [reflexivity | intros _; exact Hids].
    + split; [intros _; now apply emit_blocks_returns | intros _; exact Hids].
    + intros (code & H). discriminate.
  - destruct (forallb_has_rule_id_false _ Hb) as (t & Hin & Hn).
    split; [|split; [|split]].
    + split; [reflexivity | intros _; now exists t].
    + split; [intros H; now apply H in Hin | discriminate].
    + split; [intros H; now apply H in Hin|].
      intros (code & H). rewrite (emit_blocks_raises _ _ Hin Hn) in H.
      discriminate.
    + intros (code & H). discriminate.
Qed.

Lemma generate_pandas_validation_never_returns_witness :
  (exists t, In t [amount_rule; rule_without_id] /\ t_rule_id t = None)
  /\ generate_pandas_validation [amount_rule; rule_without_id]
     = Raise (KeyError "rule_id")
  /\ (forall t, In t [amount_rule; status_rule] -> t_rule_id t <> None)
  /\ generate_pandas_validation [amount_rule; status_rule]
     = Raise format_error
  /\ exists rules_code,
       emit_blocks [amount_rule; status_rule] = Ok rules_code.
Proof.
  assert (Hm : exists t, In t [amount_rule; rule_without_id]
                         /\ t_rule_id t = None)
    by (exists rule_without_id; split; [right; left|]; reflexivity).
  assert (Hids : forall t, In t [amount_rule; status_rule]
                           -> t_rule_id t <> None)
    by (intros t [<-|[<-|[]]]; discriminate).
  split; [exact Hm|].
  split; [exact (proj1 (proj1 (@generate_pandas_validation_never_returns
                                 [amount_rule; rule_without_id])) Hm)|].
  split; [exact Hids|].
  destruct (@generate_pandas_validation_never_returns
              [amount_rule; status_rule]) as (_ & H2 & H3 & _).
  split; [exact (proj1 H2 Hids) | exact (proj1 H3 Hids)].
Defined.

Example generate_on_the_empty_list :
  emit_blocks [] = Ok []
  /\ generate_pandas_validation [] = Raise format_error.
Proof. split; reflexivity. Qed.

(** ** The executor and the clock *)

Lemma fold_run_rule_results_only (df : DataFrame) (rules : list Rule) :
  forall r1 r2,
    rule_results r1 = rule_results r2 ->
    rule_results (fold_left (run_rule df) rules r1)
    = rule_results (fold_left (run_rule df) rules r2).
Proof.
  induction rules as [|r rules IH]; intros r1 r2 H; simpl; [exact H|].
  apply IH. rewrite !run_rule_results. now rewrite H.
Qed.

(** X33.  The executor reads the clock once, for [validation_timestamp]:
    two runs over the same rules and dataset agree on [rule_results] and on
    the three counters, and each carries the time of its own run. *)
Theorem executor_reads_the_clock_for_the_timestamp_only
  (now1 now2 : string) (validation_rules : list Rule) (df : DataFrame) :
  let res1 := validate_data now1 validation_rules df in
  let res2 := validate_data now2 validation_rules df in
  rule_results res1 = rule_results res2
  /\ total_rules (summary res1) = total_rules (summary res2)
  /\ passed_rules (summary res1) = passed_rules (summary res2)
  /\ failed_rules (summary res1) = failed_rules (summary res2)
  /\ validation_timestamp (summary res1) = now1
  /\ validation_timestamp (summary res2) = now2.
Proof.
  cbv zeta. unfold validate_data.
  split; [now apply fold_run_rule_results_only|].
  repeat match goal with
         | |- context [fold_left (run_rule df) validation_rules ?r0] =>
             let H := fresh in
             pose proof (fold_run_rule_summary df validation_rules r0) as H;
             cbv zeta in H; simpl in H;
             destruct H as (? & ? & ? & ?);
             generalize dependent (fold_left (run_rule df) validation_rules r0);
             intros
         end.
  repeat split; congruence.
Qed.

Example two_executor_runs_differ_in_the_timestamp :
  validate_data sample_time [out_of_range_rule; missing_column_rule]
    amount_frame
  <> validate_data later_time [out_of_range_rule; missing_column_rule]
       amount_frame.
Proof. intros H. discriminate H. Qed.

(** ** The executor's [rule_results] *)

Lemma fold_run_rule_get (df : DataFrame) (id : string) (rules : list Rule) :
  forall results acc,
    dict_get id (rule_results results) = option_map (entry_of df) acc ->
    dict_get id (rule_results (fold_left (run_rule df) rules results))
    = option_map (entry_of df)
        (fold_left (fun acc r => if rule_id r =? id then Some r else acc)
                   rules acc).
Proof.
  induction rules as [|r rules IH]; intros results acc H; simpl; [exact H|].
  apply IH. rewrite run_rule_results.
  destruct (rule_id r =? id) eqn:E.
  - apply String.eqb_eq in E. subst id. simpl. apply dict_get_set_same.
  - apply String.eqb_neq in E. rewrite dict_get_set_other by congruence.
    exact H.
Qed.

Lemma fold_last_rule_in (id : string) (rules : list Rule) :
  forall acc r,
    fold_left (fun acc r => if rule_id r =? id then Some r else acc) rules acc
    = Some r ->
    acc = Some r \/ (In r rules /\ rule_id r = id).
Proof.
  induction rules as [|a rules IH]; intros acc r H; simpl in H; [now left|].
  apply IH in H as [H|(Hin & Hid)].
  - destruct (rule_id a =? id) eqn:E; [|now left].
    injection H as <-. right. split; [now left | now apply String.eqb_eq].
  - right. split; [now right | assumption].
Qed.

(** X10.  The entry kept for a rule id is the one of the last rule in
    [validation_rules] that carries this id: when several rules share an
    id, the later one overwrites the earlier; an id no rule carries has no
    entry. *)
Theorem rule_results_keep_the_last_rule_of_an_id
  (now : string) (validation_rules : list Rule) (df : DataFrame)
  (id : string) :
  dict_get id (rule_results (validate_data now validation_rules df))
  = option_map (entry_of df) (last_rule id validation_rules).
Proof.
  unfold validate_data, last_rule. now apply fold_run_rule_get.
Qed.

Example later_rule_overwrites_the_entry :
  dict_get "R2"
    (rule_results (validate_data sample_time [raising_rule; passing_rule]
                     status_frame))
  = Some {| e_passed := true;
            e_description := "second rule under the same id";
            e_severity := "low";
            e_failed_records := None;
            e_error_message := None |}
  /\ summary (validate_data sample_time [raising_rule; passing_rule]
                status_frame)
     = {| total_rules := 2; passed_rules := 1; failed_rules := 1;
          validation_timestamp := sample_time |}.
Proof. split; reflexivity. Qed.

Lemma keys_dict_set (V : Type) (d : dict V) (k : string) (v : V) :
  keys (dict_set k v d) = add_key k (keys d).
Proof.
  unfold add_key. induction d as [|[k0 v0] d IH]; simpl; [reflexivity|].
  destruct (String.eqb k k0) eqn:E; simpl.
  - apply String.eqb_eq in E. now subst.
  - rewrite IH. now destruct (existsb (String.eqb k) (keys d)).
Qed.

Lemma fold_run_rule_key_list (df : DataFrame) (rules : list Rule) :
  forall results,
    keys (rule_results (fold_left (run_rule df) rules results))
    = fold_left (fun acc k => add_key k acc) (map rule_id rules)
        (keys (rule_results results)).
Proof.
  induction rules as [|r rules IH]; intros results; simpl; [reflexivity|].
  now rewrite IH, run_rule_results, keys_dict_set.
Qed.

Lemma add_key_length (k : string) (ks : list string) :
  (List.length (add_key k ks) <= S (List.length ks))%nat.
Proof.
  unfold add_key. destruct (existsb (String.eqb k) ks); [lia|].
  rewrite length_app. simpl. lia.
Qed.

Lemma fold_add_key_length (l : list string) :
  forall acc,
    (List.length (fold_left (fun acc k => add_key k acc) l acc)
     <= List.length acc + List.length l)%nat.
Proof.
  induction l as [|k l IH]; intros acc; simpl; [lia|].
  specialize (IH (add_key k acc)). pose proof (add_key_length k acc). lia.
Qed.

Lemma add_key_fresh (k : string) (ks : list string) :
  ~ In k ks -> add_key k ks = (ks ++ [k])%list.
Proof.
  intros Hn. unfold add_key.
  destruct (existsb (String.eqb k) ks) eqn:E; [|reflexivity].
  apply existsb_exists in E as (x & Hin & Hx).
  apply String.eqb_eq in Hx. now subst.
Qed.

Lemma fold_add_key_nodup (l : list string) :
  forall acc,
    NoDup (acc ++ l) ->
    fold_left (fun acc k => add_key k acc) l acc = (acc ++ l)%list.
Proof.
  induction l as [|k l IH]; intros acc Hnd; simpl; [now rewrite app_nil_r|].
  rewrite add_key_fresh.
  - rewrite IH; rewrite <- app_assoc; [reflexivity | exact Hnd].
  - apply NoDup_remove_2 in Hnd. intros Hin. apply Hnd.
    apply in_or_app. now left.
Qed.

(** X11.  The ids in [rule_results] are the distinct rule ids of
    [validation_rules] in order of first occurrence, so there are never
    more entries than [total_rules]; when the rule ids are pairwise
    distinct the entries follow the rules one for one, in the same
    order. *)
Theorem rule_results_follow_the_rule_order
  (now : string) (validation_rules : list Rule) (df : DataFrame) :
  let res := validate_data now validation_rules df in
  keys (rule_results res) = first_occurrences (map rule_id validation_rules)
  /\ (List.length (rule_results res) <= total_rules (summary res))%nat
  /\ (NoDup (map rule_id validation_rules) ->
      keys (rule_results res) = map rule_id validation_rules
      /\ List.length (rule_results res) = total_rules (summary res)).
Proof.
  cbv zeta. unfold validate_data.
  match goal with
  | |- context [fold_left _ _ ?r0] =>
      pose proof (fold_run_rule_key_list df validation_rules r0) as Hk;
      destruct (fold_run_rule_summary df validation_rules r0) as (Ht & _)
  end.
  simpl in Hk, Ht. rewrite Nat.add_0_r in Ht.
  assert (Hlen : forall d : dict RuleEntry,
             List.length d = List.length (keys d))
    by (intros d; unfold keys; now rewrite length_map).
  split; [exact Hk|]. split.
  - rewrite Hlen, Hk, Ht.
    pose proof (fold_add_key_length (map rule_id validation_rules) []) as Hl.
    simpl in Hl. now rewrite length_map in Hl.
  - intros Hnd. rewrite Hlen, Hk, Ht.
    rewrite (fold_add_key_nodup (map rule_id validation_rules) [] Hnd).
    simpl. split; [reflexivity | now rewrite length_map].
Qed.

Lemma rule_results_follow_the_rule_order_witness :
  NoDup (map rule_id [raising_rule; out_of_range_rule; missing_column_rule])
  /\ keys (rule_results
             (validate_data sample_time
                [raising_rule; out_of_range_rule; missing_column_rule]
                status_frame))
     = ["R2"; "R1"; "C1"]
  /\ List.length
       (rule_results
          (validate_data sample_time
             [raising_rule; out_of_range_rule; missing_column_rule]
             status_frame))
     = 3
  /\ (keys (rule_results
              (validate_data sample_time
                 [raising_rule; out_of_range_rule; passing_rule]
                 status_frame))
      = first_occurrences ["R2"; "R1"; "R2"]
      /\ first_occurrences ["R2"; "R1"; "R2"] = ["R2"; "R1"]
      /\ (2 <= 3)%nat).
Proof.
  assert (Hnd : NoDup (map rule_id
                         [raising_rule; out_of_range_rule;
                          missing_column_rule])).
  { repeat constructor; simpl; intuition discriminate. }
  split; [exact Hnd|].
  destruct (@rule_results_follow_the_rule_order sample_time
              [raising_rule; out_of_range_rule; missing_column_rule]
              status_frame) as (_ & _ & H3).
  destruct (H3 Hnd) as (Hk & Hl).
  split; [exact Hk|]. split; [exact Hl|].
  destruct (@rule_results_follow_the_rule_order sample_time
              [raising_rule; out_of_range_rule; passing_rule]
              status_frame) as (H1 & H2 & _).
  split; [exact H1|]. split; [reflexivity | exact H2].
Defined.

(** X12.  Every entry of [rule_results] is the entry of one of the rules,
    with that rule's description and severity; an entry with
    [passed = true] carries neither [failed_records] nor [error_message],
    and an entry with [passed = false] always carries an [error_message]
    (the empty string when the predicate returned none). *)
Theorem rule_result_entries_are_well_shaped
  (now : string) (validation_rules : list Rule) (df : DataFrame)
  (id : string) (entry : RuleEntry) :
  dict_get id (rule_results (validate_data now validation_rules df))
  = Some entry ->
  (exists r, In r validation_rules /\ rule_id r = id
             /\ entry = entry_of df r
             /\ e_description entry = description r
             /\ e_severity entry = severity r)
  /\ (e_passed entry = true ->
      e_failed_records entry = None /\ e_error_message entry = None)
  /\ (e_passed entry = false ->
      exists msg, e_error_message entry = Some msg).
Proof.
  unfold validate_data. rewrite (@fold_run_rule_get df id validation_rules _ None)
    by reflexivity.
  destruct (fold_left _ validation_rules None) as [r|] eqn:E; [|discriminate].
  simpl. intros [= <-].
  apply fold_last_rule_in in E as [E|(Hin & Hid)]; [discriminate|].
  assert (Hshape : e_description (entry_of df r) = description r
                   /\ e_severity (entry_of df r) = severity r
                   /\ (e_passed (entry_of df r) = true ->
                       e_failed_records (entry_of df r) = None
                       /\ e_error_message (entry_of df r) = None)
                   /\ (e_passed (entry_of df r) = false ->
                       exists msg, e_error_message (entry_of df r) = Some msg)).
  { unfold entry_of.
    destruct (validation_function r df) as [rr|e]; [destruct (passed rr)|];
      simpl; repeat split; try discriminate; intros _; eexists; reflexivity. }
  destruct Hshape as (Hd & Hs & Hp & Hf).
  split; [exists r; auto|]. split; assumption.
Qed.

Lemma rule_result_entries_are_well_shaped_witness :
  dict_get "R2"
    (rule_results (validate_data sample_time [raising_rule] status_frame))
  = Some (entry_of status_frame raising_rule)
  /\ e_passed (entry_of status_frame raising_rule) = false
  /\ exists msg,
       e_error_message (entry_of status_frame raising_rule) = Some msg.
Proof.
  split; [reflexivity | split; [reflexivity|]].
  exact (proj2 (proj2 (@rule_result_entries_are_well_shaped sample_time
                         [raising_rule] status_frame "R2" _ eq_refl))
           eq_refl).
Defined.

(** ** Plans out of the synthesizer *)

Lemma fill_key_keeps (p : Plan) (key k : string) :
  dict_get k p <> None -> dict_get k (fill_key p key) = dict_get k p.
Proof.
  intros Hk. unfold fill_key.
  destruct (dict_get key p) eqn:E; [reflexivity|].
  apply dict_get_set_other. intros ->. congruence.
Qed.

Lemma fill_key_present (p : Plan) (key : string) :
  dict_get key (fill_key p key) <> None.
Proof.
  unfold fill_key. destruct (dict_get key p) eqn:E; [congruence|].
  rewrite dict_get_set_same. discriminate.
Qed.

Lemma fill_required_keeps (o : Plan) (k : string) :
  dict_get k o <> None -> dict_get k (fill_required o) = dict_get k o.
Proof.
  intros Hk. unfold fill_required, required_keys. cbn [fold_left].
  assert (K : forall p key, dict_get k p = dict_get k o ->
                            dict_get k (fill_key p key) = dict_get k o).
  { intros p key Hp. rewrite fill_key_keeps; [assumption | congruence]. }
  auto.
Qed.

Lemma fill_required_present (o : Plan) (key : string) :
  In key required_keys -> dict_get key (fill_required o) <> None.
Proof.
  assert (K : forall p k k', dict_get k p <> None ->
                             dict_get k (fill_key p k') <> None).
  { intros p k k' Hp. now rewrite fill_key_keeps. }
  unfold fill_required, required_keys. cbn [fold_left].
  intros [<-|[<-|[<-|[<-|[]]]]].
  - do 3 apply K. apply fill_key_present.
  - do 2 apply K. apply fill_key_present.
  - apply K. apply fill_key_present.
  - apply fill_key_present.
Qed.

Lemma dict_set_present (V : Type) (d : dict V) (k k' : string) (v : V) :
  dict_get k d <> None -> dict_get k (dict_set k' v d) <> None.
Proof.
  intros H. destruct (String.eqb k k') eqn:E.
  - apply String.eqb_eq in E. subst. rewrite dict_get_set_same. discriminate.
  - apply String.eqb_neq in E. now rewrite dict_get_set_other.
Qed.

(** X13.  Once the prompt is formatted, [_generate_single_remediation]
    always returns a plan, whatever the service answers; the plan carries
    the rule id it was asked for, the rule type and severity of the
    template ("unknown" when absent), these three overriding anything the
    response said, and a value for each of the four required keys. *)
Theorem single_remediation_always_yields_a_complete_plan
  (llm : string -> result string) (json_loads : string -> option json)
  (format_prompt : string -> RuleTemplate -> list (dict cell) -> RuleEntry
                   -> result string)
  (rule_id : string) (rule_info : RuleTemplate) (rule_result : RuleEntry)
  (failed_data : list (dict cell)) (prompt : string) :
  format_prompt rule_id rule_info failed_data rule_result = Ok prompt ->
  exists plan,
    _generate_single_remediation llm json_loads format_prompt
      rule_id rule_info rule_result failed_data = Ok plan
    /\ dict_get "rule_id" plan = Some (JStr rule_id)
    /\ dict_get "rule_type" plan
       = Some (JStr (get (t_type rule_info) "unknown"))
    /\ dict_get "severity" plan
       = Some (JStr (get (t_severity rule_info) "unknown"))
    /\ forall key, In key required_keys -> dict_get key plan <> None.
Proof.
  intros Hp. unfold _generate_single_remediation. rewrite Hp. cbn [bind].
  destruct (parse_plan llm json_loads rule_id rule_info prompt) as [plan|e]
    eqn:E.
  - exists plan. split; [reflexivity|].
    unfold parse_plan in E.
    destruct (llm prompt) as [resp|e]; [|discriminate]. cbn [bind] in E.
    destruct (json_loads (unfence resp)) as [[| | | | |o]|]; try discriminate.
    injection E as <-.
    split; [|split; [|split]].
    + rewrite !dict_get_set_other by discriminate. apply dict_get_set_same.
    + rewrite dict_get_set_other by discriminate. apply dict_get_set_same.
    + apply dict_get_set_same.
    + intros key Hk. repeat apply dict_set_present.
      now apply fill_required_present.
  - eexists. split; [reflexivity|]. repeat split.
    intros key [<-|[<-|[<-|[<-|[]]]]]; discriminate.
Qed.

Lemma single_remediation_always_yields_a_complete_plan_witness :
  sample_format_prompt "R1" amount_rule [] (entry_of amount_frame raising_rule)
  = Ok "Generate a remediation plan for rule R1"
  /\ exists plan,
       _generate_single_remediation sample_llm sample_json_loads
         sample_format_prompt "R1" amount_rule
         (entry_of amount_frame raising_rule) [] = Ok plan
       /\ dict_get "rule_id" plan = Some (JStr "R1")
       /\ dict_get "rule_type" plan = Some (JStr "range_check")
       /\ dict_get "severity" plan = Some (JStr "high")
       /\ forall key, In key required_keys -> dict_get key plan <> None.
Proof.
  split; [reflexivity|].
  exact (@single_remediation_always_yields_a_complete_plan
           sample_llm sample_json_loads sample_format_prompt "R1" amount_rule
           (entry_of amount_frame raising_rule) []
           "Generate a remediation plan for rule R1" eq_refl).
Defined.

(** X14.  When the service call raises, or its response does not decode,
    or decodes to something other than an object, the plan is the fallback
    plan: manual review only, [can_automate = false].  The executor then
    attempts nothing for it: it returns the copy of the data and no
    record. *)
Theorem unusable_response_gives_the_manual_plan
  (llm : string -> result string) (json_loads : string -> option json)
  (format_prompt : string -> RuleTemplate -> list (dict cell) -> RuleEntry
                   -> result string)
  (py_exec : string -> exec_result) (format_value : json -> string)
  (rule_id : string) (rule_info : RuleTemplate) (rule_result : RuleEntry)
  (failed_data : list (dict cell)) (prompt : string) :
  format_prompt rule_id rule_info failed_data rule_result = Ok prompt ->
  response_unusable llm json_loads prompt ->
  _generate_single_remediation llm json_loads format_prompt
    rule_id rule_info rule_result failed_data
  = Ok (fallback_plan rule_id rule_info)
  /\ dict_get "can_automate" (fallback_plan rule_id rule_info)
     = Some (JBool false)
  /\ dict_get "remediation_steps" (fallback_plan rule_id rule_info)
     = Some (JArr [JStr "Manual review required"])
  /\ forall st data,
       apply_automatic_remediations llm py_exec format_value st data
         [(rule_id, fallback_plan rule_id rule_info)]
       = ((st ++ [deref st data])%list, FrameAt (List.length st), []).
Proof.
  intros Hp Hu. unfold _generate_single_remediation, parse_plan.
  rewrite Hp. cbn [bind]. unfold response_unusable in Hu.
  split; [|split; [reflexivity | split; [reflexivity|]]].
  - destruct (llm prompt) as [resp|e]; [|reflexivity]. cbn [bind].
    destruct (json_loads (unfence resp)) as [[| | | | |o]|];
      try reflexivity. contradiction.
  - intros st data. reflexivity.
Qed.

Lemma unusable_response_gives_the_manual_plan_witness :
  sample_format_prompt "R1" amount_rule [] (entry_of amount_frame raising_rule)
  = Ok "Generate a remediation plan for rule R1"
  /\ response_unusable (fun _ => Ok "no plan, sorry") sample_json_loads
       "Generate a remediation plan for rule R1"
  /\ _generate_single_remediation (fun _ => Ok "no plan, sorry")
       sample_json_loads sample_format_prompt "R1" amount_rule
       (entry_of amount_frame raising_rule) []
     = Ok manual_plan.
Proof.
  split; [reflexivity | split; [exact I|]].
  exact (proj1 (@unusable_response_gives_the_manual_plan
                  (fun _ => Ok "no plan, sorry") sample_json_loads
                  sample_format_prompt sample_exec sample_format_value
                  "R1" amount_rule (entry_of amount_frame raising_rule) []
                  "Generate a remediation plan for rule R1" eq_refl I)).
Defined.

(** X15.  A value the response object gives under any key other than
    [rule_id], [rule_type] and [severity] reaches the plan unchanged: a
    required key that is present is not replaced by the placeholder, and
    extra keys such as [automation_code] are kept. *)
Theorem response_values_are_kept
  (llm : string -> result string) (json_loads : string -> option json)
  (format_prompt : string -> RuleTemplate -> list (dict cell) -> RuleEntry
                   -> result string)
  (rule_id : string) (rule_info : RuleTemplate) (rule_result : RuleEntry)
  (failed_data : list (dict cell))
  (prompt llm_response : string) (o : list (string * json))
  (k : string) (v : json) :
  format_prompt rule_id rule_info failed_data rule_result = Ok prompt ->
  llm prompt = Ok llm_response ->
  json_loads (unfence llm_response) = Some (JObj o) ->
  dict_get k o = Some v ->
  ~ In k metadata_keys ->
  exists plan,
    _generate_single_remediation llm json_loads format_prompt
      rule_id rule_info rule_result failed_data = Ok plan
    /\ dict_get k plan = Some v.
Proof.
  intros Hp Hl Hj Hk Hmeta.
  unfold _generate_single_remediation, parse_plan. rewrite Hp. cbn [bind].
  rewrite Hl. cbn [bind]. rewrite Hj. eexists. split; [reflexivity|].
  unfold metadata_keys in Hmeta. simpl in Hmeta.
  rewrite !dict_get_set_other by intuition congruence.
  rewrite fill_required_keeps; [assumption | congruence].
Qed.

Lemma response_values_are_kept_witness :
  sample_format_prompt "R1" amount_rule [] (entry_of amount_frame raising_rule)
  = Ok "Generate a remediation plan for rule R1"
  /\ ~ In "can_automate" metadata_keys
  /\ exists plan,
       _generate_single_remediation (fun _ => Ok "{}")
         (fun _ => Some (JObj [("can_automate", JBool false);
                               ("rule_id", JStr "other")]))
         sample_format_prompt "R1" amount_rule
         (entry_of amount_frame raising_rule) [] = Ok plan
       /\ dict_get "can_automate" plan = Some (JBool false).
Proof.
  assert (Hm : ~ In "can_automate" metadata_keys)
    by (simpl; intuition discriminate).
  split; [reflexivity | split; [exact Hm|]].
  exact (@response_values_are_kept
           (fun _ => Ok "{}")
           (fun _ => Some (JObj [("can_automate", JBool false);
                                 ("rule_id", JStr "other")]))
           sample_format_prompt "R1" amount_rule
           (entry_of amount_frame raising_rule) []
           "Generate a remediation plan for rule R1" "{}" _
           "can_automate" (JBool false) eq_refl eq_refl eq_refl eq_refl Hm).
Defined.

(** ** The synthesizer's counters and edges *)

Lemma count_plan_handled (plan : Plan) (s : RemediationSummary) :
  total_issues (count_plan plan s) = total_issues s
  /\ remediated_issues (count_plan plan s)
     + manual_review_issues (count_plan plan s)
     = S (remediated_issues s + manual_review_issues s).
Proof.
  unfold count_plan.
  destruct (truthy (get (dict_get "can_automate" plan) JNull)); simpl;
    split; lia.
Qed.

Lemma dict_set_fresh_length (V : Type) (d : dict V) (k : string) (v : V) :
  ~ In k (keys d) ->
  keys (dict_set k v d) = (keys d ++ [k])%list
  /\ List.length (dict_set k v d) = S (List.length d).
Proof.
  intros Hn. pose proof (@keys_dict_set _ d k v) as Hk.
  rewrite add_key_fresh in Hk by assumption. split; [exact Hk|].
  apply (f_equal (@List.length _)) in Hk. unfold keys in Hk.
  rewrite length_app, !length_map in Hk. simpl in Hk. lia.
Qed.

Lemma nodup_map_filter (A B : Type) (f : A -> B) (g : A -> bool)
  (l : list A) :
  NoDup (map f l) -> NoDup (map f (filter g l)).
Proof.
  induction l as [|a l IH]; simpl; intros H; [constructor|].
  inversion H as [|? ? Hn Hnd]; subst.
  destruct (g a); simpl; [|now apply IH].
  constructor; [|now apply IH].
  intros Hin. apply Hn. apply in_map_iff in Hin as (x & Hx & Hin).
  apply in_map_iff. exists x. split; [assumption|].
  now apply filter_In in Hin as [Hin _].
Qed.

Section CounterFacts.
Variable llm : string -> result string.
Variable json_loads : string -> option json.
Variable format_prompt :
  string -> RuleTemplate -> list (dict cell) -> RuleEntry -> result string.

Lemma process_failed_counts (vr : Results) (data : DataFrame)
  (details : dict RuleTemplate) (ids : list string) :
  forall recs recs',
    process_failed llm json_loads format_prompt vr data details ids recs
    = Ok recs' ->
    NoDup (keys (remediation_plans recs) ++ ids) ->
    total_issues (rec_summary recs') = total_issues (rec_summary recs)
    /\ handled recs' + List.length (remediation_plans recs)
       = handled recs + List.length (remediation_plans recs')
    /\ (List.length (remediation_plans recs')
        <= List.length (remediation_plans recs) + List.length ids)%nat.
Proof.
  induction ids as [|i ids IH]; intros recs recs' H Hnd;
    cbn [process_failed] in H.
  - injection H as <-. simpl. repeat split; lia.
  - assert (Hskip : NoDup (keys (remediation_plans recs) ++ ids))
      by (now apply NoDup_remove_1 in Hnd).
    assert (Hfresh : ~ In i (keys (remediation_plans recs))).
    { apply NoDup_remove_2 in Hnd. intros Hin. apply Hnd.
      apply in_or_app. now left. }
    destruct (dict_get i (rule_results vr)) as [entry|].
    + destruct (is_empty (get (e_failed_records entry) [])).
      * destruct (IH _ _ H Hskip) as (Ht & Hh & Hl). simpl.
        repeat split; try assumption; lia.
      * destruct (loc_records data _) as [rows|e]; [|discriminate].
        cbn [bind] in H.
        destruct (_generate_single_remediation llm json_loads format_prompt
                    i _ entry rows) as [plan|e]; [|discriminate].
        cbn [bind] in H.
        destruct (@dict_set_fresh_length _ (remediation_plans recs) i plan Hfresh)
          as (Hk & Hlen).
        destruct (count_plan_handled plan (rec_summary recs)) as (Hct & Hch).
        apply IH in H as (Ht & Hh & Hl).
        -- unfold handled in *. simpl in *. rewrite Hlen in *.
           repeat split; lia.
        -- simpl. rewrite Hk, <- app_assoc. exact Hnd.
    + destruct (IH _ _ H Hskip) as (Ht & Hh & Hl). simpl.
      repeat split; try assumption; lia.
Qed.

Lemma rule_details_of_raises (failed_rules : list string)
  (rule_templates : list RuleTemplate) :
  (exists t, In t rule_templates /\ t_rule_id t = None) ->
  forall acc,
    rule_details_of failed_rules rule_templates acc
    = Raise (KeyError "rule_id").
Proof.
  induction rule_templates as [|t ts IH]; intros (t' & Hin & Hn) acc;
    [destruct Hin|].
  simpl. destruct (t_rule_id t) as [id|] eqn:E; [|reflexivity].
  apply IH. destruct Hin as [<-|Hin]; [congruence|]. now exists t'.
Qed.

End CounterFacts.

(** X16.  In the recommendations the synthesizer returns, [total_issues]
    is the number of rules recorded as failed, and the two other counters
    add up to the number of plans, which never exceeds [total_issues]: a
    failed rule without failing rows is counted as an issue and gets no
    plan. *)
Theorem recommendation_counters_add_up
  (llm : string -> result string) (json_loads : string -> option json)
  (format_prompt : string -> RuleTemplate -> list (dict cell) -> RuleEntry
                   -> result string)
  (validation_results : Results) (data : DataFrame)
  (rule_templates : list RuleTemplate) (recs : Recommendations) :
  NoDup (keys (rule_results validation_results)) ->
  generate_remediation_recommendations llm json_loads format_prompt
    validation_results data rule_templates = Ok recs ->
  total_issues (rec_summary recs)
  = List.length (filter (fun kv => negb (e_passed (snd kv)))
                        (rule_results validation_results))
  /\ remediated_issues (rec_summary recs)
     + manual_review_issues (rec_summary recs)
     = List.length (remediation_plans recs)
  /\ (List.length (remediation_plans recs)
      <= total_issues (rec_summary recs))%nat.
Proof.
  intros Hnd H. unfold generate_remediation_recommendations in H.
  set (failed_rules := map fst (filter (fun kv => negb (e_passed (snd kv)))
                                       (rule_results validation_results)))
    in *.
  assert (Hlen : List.length failed_rules
                 = List.length (filter (fun kv => negb (e_passed (snd kv)))
                                       (rule_results validation_results)))
    by (unfold failed_rules; now rewrite length_map).
  destruct (is_empty failed_rules).
  - injection H as <-. simpl. rewrite <- Hlen. repeat split; lia.
  - destruct (rule_details_of failed_rules rule_templates [])
      as [details|e]; [|discriminate].
    cbn [bind] in H. apply process_failed_counts in H as (Ht & Hh & Hl).
    + unfold handled in Hh. simpl in *. rewrite <- Hlen. repeat split; lia.
    + simpl. unfold failed_rules. now apply nodup_map_filter.
Qed.

Lemma recommendation_counters_add_up_witness :
  NoDup (keys (rule_results sample_results))
  /\ generate_remediation_recommendations sample_llm sample_json_loads
       sample_format_prompt sample_results amount_frame
       [amount_rule; status_rule] = Ok sample_recommendations
  /\ total_issues (rec_summary sample_recommendations) = 2
  /\ remediated_issues (rec_summary sample_recommendations)
     + manual_review_issues (rec_summary sample_recommendations) = 1
  /\ (1 <= 2)%nat.
Proof.
  assert (Hnd : NoDup (keys (rule_results sample_results))).
  { repeat constructor; simpl; intuition discriminate. }
  split; [exact Hnd | split; [reflexivity|]].
  exact (@recommendation_counters_add_up sample_llm sample_json_loads
           sample_format_prompt sample_results amount_frame
           [amount_rule; status_rule] sample_recommendations Hnd eq_refl).
Defined.

(** X17.  When no rule is recorded as failed, the synthesizer returns the
    empty recommendations without reading the templates or calling the
    service; when some rule is recorded as failed and some template has no
    rule id, it raises [KeyError('rule_id')] before any plan is made. *)
Theorem synthesizer_reads_the_templates_only_on_failure
  (llm : string -> result string) (json_loads : string -> option json)
  (format_prompt : string -> RuleTemplate -> list (dict cell) -> RuleEntry
                   -> result string)
  (validation_results : Results) (data : DataFrame)
  (rule_templates : list RuleTemplate) :
  (Forall (fun kv => e_passed (snd kv) = true)
          (rule_results validation_results) ->
   generate_remediation_recommendations llm json_loads format_prompt
     validation_results data rule_templates
   = Ok {| rec_summary := {| total_issues := 0; remediated_issues := 0;
                             manual_review_issues := 0 |};
           remediation_plans := [] |})
  /\ (Exists (fun kv => e_passed (snd kv) = false)
             (rule_results validation_results) ->
      (exists t, In t rule_templates /\ t_rule_id t = None) ->
      generate_remediation_recommendations llm json_loads format_prompt
        validation_results data rule_templates
      = Raise (KeyError "rule_id")).
Proof.
  unfold generate_remediation_recommendations. split.
  - intros Hall.
    assert (E : filter (fun kv => negb (e_passed (snd kv)))
                       (rule_results validation_results) = []).
    { induction Hall as [|kv l Hkv _ IH]; simpl; [reflexivity|].
      now rewrite Hkv. }
    rewrite E. reflexivity.
  - intros Hex Hmissing.
    assert (E : is_empty
                  (map fst (filter (fun kv => negb (e_passed (snd kv)))
                                   (rule_results validation_results)))
                = false).
    { induction Hex as [kv l Hkv|kv l _ IH]; simpl.
      - now rewrite Hkv.
      - destruct (negb (e_passed (snd kv))); [reflexivity | exact IH]. }
    rewrite E. now rewrite rule_details_of_raises.
Qed.

Lemma synthesizer_reads_the_templates_only_on_failure_witness :
  Exists (fun kv => e_passed (snd kv) = false) (rule_results sample_results)
  /\ (exists t, In t [amount_rule; rule_without_id] /\ t_rule_id t = None)
  /\ generate_remediation_recommendations sample_llm sample_json_loads
       sample_format_prompt sample_results amount_frame
       [amount_rule; rule_without_id]
     = Raise (KeyError "rule_id").
Proof.
  assert (Hex : Exists (fun kv => e_passed (snd kv) = false)
                       (rule_results sample_results))
    by (constructor; reflexivity).
  assert (Hm : exists t, In t [amount_rule; rule_without_id]
                         /\ t_rule_id t = None)
    by (exists rule_without_id; split; [right; left|]; reflexivity).
  split; [exact Hex | split; [exact Hm|]].
  exact (proj2 (@synthesizer_reads_the_templates_only_on_failure
                  sample_llm sample_json_loads sample_format_prompt
                  sample_results amount_frame [amount_rule; rule_without_id])
           Hex Hm).
Defined.

(** ** The remediation executor's records *)

(** X18.  The executor appends exactly one record for each plan whose
    [can_automate] is truthy, in plan order, and none for the others; a
    record is either applied, with a description and no error, or failed,
    with an error and no description.  With one plan per rule id there is
    at most one record per rule id. *)
Theorem applied_records_follow_the_automated_plans
  (llm : string -> result string) (py_exec : string -> exec_result)
  (format_value : json -> string)
  (st : store) (data : loc) (plans : dict Plan)
  (st' : store) (remediated_data : binding)
  (applied_remediations : list AppliedRecord) :
  apply_automatic_remediations llm py_exec format_value st data plans
  = (st', remediated_data, applied_remediations) ->
  map a_rule_id applied_remediations = map fst (filter automated plans)
  /\ Forall record_shape applied_remediations
  /\ (NoDup (keys plans) -> NoDup (map a_rule_id applied_remediations)).
Proof.
  unfold apply_automatic_remediations, alloc. intros H.
  pose proof (@apply_loop_records llm py_exec format_value plans
                (st ++ [deref st data])%list (FrameAt (List.length st)) [])
    as Hr.
  rewrite H in Hr. destruct Hr as (new & -> & Hids & Hall). simpl.
  split; [exact Hids|]. split; [exact Hall|].
  intros Hnd. rewrite Hids. now apply nodup_map_filter.
Qed.

Lemma applied_records_follow_the_automated_plans_witness :
  apply_automatic_remediations sample_llm sample_exec sample_format_value
    [amount_frame] 0 [("M1", manual_plan); ("R1", canned_plan)]
  = ([amount_frame; blanked_amount_frame],
     FrameAt 1,
     [applied "R1" canned_plan])
  /\ NoDup (keys [("M1", manual_plan); ("R1", canned_plan)])
  /\ map a_rule_id [applied "R1" canned_plan] = ["R1"]
  /\ Forall record_shape [applied "R1" canned_plan]
  /\ NoDup (map a_rule_id [applied "R1" canned_plan]).
Proof.
  assert (Hnd : NoDup (keys [("M1", manual_plan); ("R1", canned_plan)])).
  { repeat constructor; simpl; intuition discriminate. }
  split; [reflexivity | split; [exact Hnd|]].
  destruct (@applied_records_follow_the_automated_plans
              sample_llm sample_exec sample_format_value
              [amount_frame] 0 [("M1", manual_plan); ("R1", canned_plan)]
              _ _ _ eq_refl) as (H1 & H2 & H3).
  split; [exact H1|]. split; [exact H2 | exact (H3 Hnd)].
Defined.

(** X19.  A failed attempt undoes nothing.  When the service or [exec]
    raises, or the code defines no callable, the heap and the working
    dataset stay as the earlier plans left them and the failed record goes
    after the records already made.  When the transformation itself raises,
    what it had changed in place by then stays changed, and the name still
    refers to the same object.  Running the loop over [p1 ++ p2] is running
    it over [p2] from where the run over [p1] ends. *)
Theorem failed_attempt_keeps_earlier_remediations
  (llm : string -> result string) (py_exec : string -> exec_result)
  (format_value : json -> string)
  (st : store) (remediated_data : binding) (rule_id : string) (plan : Plan)
  (applied_remediations : list AppliedRecord) :
  truthy (get (dict_get "can_automate" plan) (JBool false)) = true ->
  let run := apply_loop llm py_exec format_value st remediated_data
               [(rule_id, plan)] applied_remediations in
  (forall e,
      llm (automation_prompt format_value plan) = Raise e ->
      run = (st, remediated_data,
             (applied_remediations ++ [failed rule_id (str_of_exn e)])%list))
  /\ (forall code e,
         llm (automation_prompt format_value plan) = Ok code ->
         py_exec code = ExecRaise e ->
         run = (st, remediated_data,
                (applied_remediations
                   ++ [failed rule_id (str_of_exn e)])%list))
  /\ (forall code,
         llm (automation_prompt format_value plan) = Ok code ->
         py_exec code = ExecNoCallable ->
         run = (st, remediated_data,
                (applied_remediations
                   ++ [failed rule_id
                         "Could not extract remediation function from code"])
                %list))
  /\ (forall code f l e,
         llm (automation_prompt format_value plan) = Ok code ->
         py_exec code = ExecCallable f ->
         remediated_data = FrameAt l ->
         outcome (on_frame f (deref st l)) = Raise e ->
         run = (assign st l (arg_after (on_frame f (deref st l))),
                FrameAt l,
                (applied_remediations
                   ++ [failed rule_id (str_of_exn e)])%list))
  /\ (forall p1 p2,
         apply_loop llm py_exec format_value st remediated_data
           (p1 ++ p2)%list applied_remediations
         = let '(st1, b1, acc1) :=
             apply_loop llm py_exec format_value st remediated_data p1
               applied_remediations in
           apply_loop llm py_exec format_value st1 b1 p2 acc1).
Proof.
  intros Ht. cbv zeta. cbn [apply_loop]. rewrite Ht. cbn [negb].
  unfold attempt.
  split; [|split; [|split; [|split]]].
  - intros e ->. reflexivity.
  - intros code e -> ->. reflexivity.
  - intros code -> ->. reflexivity.
  - intros code f l e -> -> -> ->. reflexivity.
  - intros p1 p2. apply apply_loop_app.
Qed.

Lemma failed_attempt_keeps_earlier_remediations_witness :
  truthy (get (dict_get "can_automate" canned_plan) (JBool false)) = true
  /\ (sample_llm (automation_prompt sample_format_value canned_plan)
      = Ok canned_response
      /\ no_callable_exec canned_response = ExecNoCallable
      /\ apply_loop sample_llm no_callable_exec sample_format_value
           [amount_frame; blanked_amount_frame] (FrameAt 1)
           [("R2", canned_plan)] [applied "R1" canned_plan]
         = ([amount_frame; blanked_amount_frame], FrameAt 1,
            [applied "R1" canned_plan;
             failed "R2"
               "Could not extract remediation function from code"]))
  /\ (sample_llm (automation_prompt sample_format_value canned_plan)
      = Ok canned_response
      /\ outcome (on_frame blank_amounts_then_raise amount_frame)
         = Raise (Exn "ValueError" "no rows left")
      /\ apply_loop sample_llm
           (fun _ => ExecCallable blank_amounts_then_raise)
           sample_format_value
           [amount_frame; amount_frame] (FrameAt 1)
           [("R2", canned_plan)] [applied "R1" canned_plan]
         = ([amount_frame; blanked_amount_frame], FrameAt 1,
            [applied "R1" canned_plan; failed "R2" "no rows left"])).
Proof.
  split; [reflexivity|]. split.
  - split; [reflexivity|]. split; [reflexivity|].
    exact (proj1 (proj2 (proj2
             (@failed_attempt_keeps_earlier_remediations
                sample_llm no_callable_exec sample_format_value
                [amount_frame; blanked_amount_frame] (FrameAt 1) "R2"
                canned_plan [applied "R1" canned_plan] eq_refl)))
             canned_response eq_refl eq_refl).
  - split; [reflexivity|]. split; [reflexivity|].
    exact (proj1 (proj2 (proj2 (proj2
             (@failed_attempt_keeps_earlier_remediations
                sample_llm (fun _ => ExecCallable blank_amounts_then_raise)
                sample_format_value
                [amount_frame; amount_frame] (FrameAt 1) "R2"
                canned_plan [applied "R1" canned_plan] eq_refl))))
             canned_response blank_amounts_then_raise 1
             (Exn "ValueError" "no rows left")
             eq_refl eq_refl eq_refl eq_refl).
Defined.

(** ** The audit aggregation *)

Lemma filter_partition_length (A : Type) (f : A -> bool) (l : list A) :
  List.length (filter f l) + List.length (filter (fun a => negb (f a)) l)
  = List.length l.
Proof.
  induction l as [|a l IH]; simpl; [reflexivity|].
  destruct (f a); simpl; lia.
Qed.

Lemma shaped_status_counts (recs : list AppliedRecord) :
  Forall record_shape recs ->
  List.length (filter (fun p => a_status p =? "applied") recs)
  + List.length (filter (fun p => a_status p =? "failed") recs)
  = List.length recs.
Proof.
  induction 1 as [|r recs Hr _ IH]; simpl; [reflexivity|].
  destruct Hr as [(-> & _)|(-> & _)]; simpl; lia.
Qed.

Lemma issue_detail_rule_id (recs : list AppliedRecord) (kp : string * Plan) :
  i_rule_id (issue_detail recs kp) = fst kp.
Proof.
  unfold issue_detail. destruct kp as [id plan].
  now destruct (remediation_outcome id recs).
Qed.

Lemma issue_detail_outcome (recs : list AppliedRecord) (id : string)
  (plan : Plan) :
  (i_remediation_status (issue_detail recs (id, plan)),
   i_remediation_error (issue_detail recs (id, plan)))
  = remediation_outcome id recs.
Proof.
  unfold issue_detail. now destruct (remediation_outcome id recs).
Qed.

Lemma join_absent (id : string) (recs : list AppliedRecord) :
  ~ In id (map a_rule_id recs) ->
  forall acc, fold_left (join_step id) recs acc = acc.
Proof.
  induction recs as [|a recs IH]; intros Hn acc; simpl; [reflexivity|].
  simpl in Hn. unfold join_step at 2.
  destruct (a_rule_id a =? id) eqn:E.
  - apply String.eqb_eq in E. exfalso. apply Hn. now left.
  - apply IH. intros Hin. apply Hn. now right.
Qed.

Lemma join_present (recs : list AppliedRecord) :
  NoDup (map a_rule_id recs) -> Forall record_shape recs ->
  forall r acc,
    In r recs -> snd acc = None ->
    fold_left (join_step (a_rule_id r)) recs acc = (a_status r, a_error r).
Proof.
  induction recs as [|a recs IH]; intros Hnd Hall r acc Hin Hacc;
    [destruct Hin|].
  simpl in Hnd. inversion Hnd as [|? ? Hfresh Hnd']; subst.
  inversion Hall as [|? ? Ha Hall']; subst.
  simpl. destruct Hin as [->|Hin].
  - rewrite join_absent by assumption.
    unfold join_step. rewrite String.eqb_refl.
    destruct Ha as [(-> & -> & _)|(-> & He & _)]; simpl.
    + now rewrite Hacc.
    + destruct (a_error r); [reflexivity | contradiction].
  - unfold join_step at 2.
    destruct (a_rule_id a =? a_rule_id r) eqn:E.
    + apply String.eqb_eq in E. exfalso. apply Hfresh. rewrite E.
      now apply in_map.
    + now apply IH.
Qed.

(** X20.  In the data the audit report is rendered from, built on the
    records the executor returned for the same plans, there is one issue
    row per plan, in plan order; every record is counted either as
    automated or as failed; and the automated, failed and manual-review
    counts add up to the number of plans. *)
Theorem audit_counts_partition_the_plans
  (llm : string -> result string) (py_exec : string -> exec_result)
  (format_value : json -> string)
  (validation_results : Results)
  (st : store) (data : loc) (plans : dict Plan)
  (st' : store) (remediated_data : binding)
  (applied_remediations : list AppliedRecord) :
  apply_automatic_remediations llm py_exec format_value st data plans
  = (st', remediated_data, applied_remediations) ->
  let rd := report_data validation_results plans applied_remediations in
  map i_rule_id (issue_details rd) = keys plans
  /\ rd_total_issues rd = List.length plans
  /\ automated_remediations rd + failed_remediations rd
     = List.length applied_remediations
  /\ automated_remediations rd + failed_remediations rd
     + manual_review_required rd
     = rd_total_issues rd.
Proof.
  unfold apply_automatic_remediations, alloc. intros H.
  pose proof (@apply_loop_records llm py_exec format_value plans
                (st ++ [deref st data])%list (FrameAt (List.length st)) []) as Hr.
  rewrite H in Hr. destruct Hr as (new & -> & Hids & Hall).
  cbv zeta. unfold report_data. simpl.
  split; [|split; [reflexivity|]].
  - rewrite map_map. unfold keys. apply map_ext. intros kp.
    apply issue_detail_rule_id.
  - pose proof (shaped_status_counts Hall) as Hc.
    split; [exact Hc|]. rewrite Hc.
    apply (f_equal (@List.length _)) in Hids. rewrite !length_map in Hids.
    rewrite Hids. apply (filter_partition_length automated).
Qed.

Lemma audit_counts_partition_the_plans_witness :
  apply_automatic_remediations sample_llm sample_exec sample_format_value
    [amount_frame] 0 [("M1", manual_plan); ("R1", canned_plan)]
  = ([amount_frame;
      {| df_index := [0; 1; 2; 3]%Z;
         df_columns := [("amount", [CNull; CNull; CNull; CNull])] |}],
     FrameAt 1,
     [applied "R1" canned_plan])
  /\ report_data sample_results [("M1", manual_plan); ("R1", canned_plan)]
       [applied "R1" canned_plan]
     = {| validation_summary := summary sample_results;
          rd_total_issues := 2;
          automated_remediations := 1;
          failed_remediations := 0;
          manual_review_required := 1;
          issue_details :=
            [issue_detail [applied "R1" canned_plan] ("M1", manual_plan);
             issue_detail [applied "R1" canned_plan] ("R1", canned_plan)] |}
  /\ (1 + 0 + 1 = 2)%nat.
Proof.
  split; [reflexivity | split; [reflexivity|]].
  exact (proj2 (proj2 (proj2
           (@audit_counts_partition_the_plans
              sample_llm sample_exec sample_format_value sample_results
              [amount_frame] 0 [("M1", manual_plan); ("R1", canned_plan)]
              _ _ _ eq_refl)))).
Defined.

(** X21.  With one plan per rule id, each issue row of the audit data is
    joined with the record of its own plan: a plan the executor did not
    attempt has status "not_attempted" and no error; an attempted plan has
    the status and the error of the one record appended for it. *)
Theorem audit_rows_join_plans_with_their_records
  (llm : string -> result string) (py_exec : string -> exec_result)
  (format_value : json -> string)
  (st : store) (data : loc) (plans : dict Plan)
  (st' : store) (remediated_data : binding)
  (applied_remediations : list AppliedRecord)
  (id : string) (plan : Plan) :
  apply_automatic_remediations llm py_exec format_value st data plans
  = (st', remediated_data, applied_remediations) ->
  NoDup (keys plans) ->
  In (id, plan) plans ->
  let row := issue_detail applied_remediations (id, plan) in
  (automated (id, plan) = false ->
   i_remediation_status row = "not_attempted"
   /\ i_remediation_error row = None)
  /\ (automated (id, plan) = true ->
      exists r, In r applied_remediations /\ a_rule_id r = id
                /\ i_remediation_status row = a_status r
                /\ i_remediation_error row = a_error r).
Proof.
  intros H Hnd Hin.
  unfold apply_automatic_remediations, alloc in H.
  pose proof (@apply_loop_records llm py_exec format_value plans
                (st ++ [deref st data])%list (FrameAt (List.length st)) []) as Hr.
  rewrite H in Hr. destruct Hr as (new & -> & Hids & Hall). simpl.
  pose proof (issue_detail_outcome new id plan) as Ho.
  assert (Hrec_nd : NoDup (map a_rule_id new))
    by (rewrite Hids; now apply nodup_map_filter).
  split.
  - intros Hauto.
    assert (Habs : ~ In id (map a_rule_id new)).
    { rewrite Hids. intros Hi. apply in_map_iff in Hi as ([k p'] & Hk & Hf).
      simpl in Hk. subst k. apply filter_In in Hf as (Hf & Ha).
      pose proof (@dict_get_in_nodup _ _ _ _ Hnd Hf) as E1.
      pose proof (@dict_get_in_nodup _ _ _ _ Hnd Hin) as E2.
      rewrite E1 in E2. injection E2 as ->. congruence. }
    unfold remediation_outcome in Ho. rewrite join_absent in Ho by assumption.
    now injection Ho as -> ->.
  - intros Hauto.
    assert (Hi : In id (map a_rule_id new)).
    { rewrite Hids. apply in_map_iff. exists (id, plan).
      split; [reflexivity|]. apply filter_In. now split. }
    apply in_map_iff in Hi as (r & Hr & Hrin). subst id.
    exists r. split; [assumption|]. split; [reflexivity|].
    unfold remediation_outcome in Ho.
    rewrite (join_present Hrec_nd Hall r ("not_attempted", None) Hrin
               eq_refl) in Ho.
    now injection Ho as -> ->.
Qed.

Lemma audit_rows_join_plans_with_their_records_witness :
  apply_automatic_remediations sample_llm sample_exec sample_format_value
    [amount_frame] 0 [("M1", manual_plan); ("R1", canned_plan)]
  = ([amount_frame;
      {| df_index := [0; 1; 2; 3]%Z;
         df_columns := [("amount", [CNull; CNull; CNull; CNull])] |}],
     FrameAt 1,
     [applied "R1" canned_plan])
  /\ NoDup (keys [("M1", manual_plan); ("R1", canned_plan)])
  /\ In ("M1", manual_plan) [("M1", manual_plan); ("R1", canned_plan)]
  /\ automated ("M1", manual_plan) = false
  /\ i_remediation_status
       (issue_detail [applied "R1" canned_plan] ("M1", manual_plan))
     = "not_attempted"
  /\ i_remediation_error
       (issue_detail [applied "R1" canned_plan] ("M1", manual_plan))
     = None.
Proof.
  assert (Hnd : NoDup (keys [("M1", manual_plan); ("R1", canned_plan)])).
  { repeat constructor; simpl; intuition discriminate. }
  split; [reflexivity | split; [exact Hnd|]].
  split; [left; reflexivity | split; [reflexivity|]].
  exact (proj1 (@audit_rows_join_plans_with_their_records
                  sample_llm sample_exec sample_format_value
                  [amount_frame] 0 [("M1", manual_plan); ("R1", canned_plan)]
                  _ _ _ "M1" manual_plan eq_refl Hnd (or_introl eq_refl))
           eq_refl).
Defined.

(** ** The stages chained *)

(** X24.  The pipeline short-circuits on its inputs: without rule
    templates every stage is a no-op and the bundle is empty, the heap
    untouched; with a template that has no rule id the compile stage
    raises [KeyError('rule_id')] and no later stage runs. *)
Theorem pipeline_short_circuits
  (llm : string -> result string) (json_loads : string -> option json)
  (format_prompt : string -> RuleTemplate -> list (dict cell) -> RuleEntry
                   -> result string)
  (py_exec : string -> exec_result) (format_value : json -> string)
  (import_and_validate : string -> string -> DataFrame -> result Results)
  (now : string) (rule_templates : list RuleTemplate)
  (st : store) (data : loc) :
  (rule_templates = [] ->
   run_end_to_end_pipeline llm json_loads format_prompt py_exec format_value
     import_and_validate now rule_templates st data
   = Ok {| b_store := st;
           b_remediated_data := None;
           b_validation_results := None;
           b_remediation_plans := None;
           b_applied_remediations := [] |})
  /\ ((exists t, In t rule_templates /\ t_rule_id t = None) ->
      run_end_to_end_pipeline llm json_loads format_prompt py_exec
        format_value import_and_validate now rule_templates st data
      = Raise (KeyError "rule_id")).
Proof.
  split.
  - intros ->. reflexivity.
  - intros (t & Hin & Hn).
    unfold run_end_to_end_pipeline, stage_validation_code.
    destruct rule_templates as [|a ts]; [destruct Hin|]. cbn [is_empty].
    unfold generate_pandas_validation.
    now rewrite (emit_blocks_raises _ _ Hin Hn).
Qed.

Lemma pipeline_short_circuits_witness :
  (@nil RuleTemplate = []
   /\ run_end_to_end_pipeline sample_llm sample_json_loads
        sample_format_prompt sample_exec sample_format_value sample_import
        sample_time [] [amount_frame] 0
      = Ok {| b_store := [amount_frame];
              b_remediated_data := None;
              b_validation_results := None;
              b_remediation_plans := None;
              b_applied_remediations := [] |})
  /\ ((exists t, In t [amount_rule; rule_without_id] /\ t_rule_id t = None)
      /\ run_end_to_end_pipeline sample_llm sample_json_loads
           sample_format_prompt sample_exec sample_format_value sample_import
           sample_time [amount_rule; rule_without_id] [amount_frame] 0
         = Raise (KeyError "rule_id")).
Proof.
  assert (Hm : exists t, In t [amount_rule; rule_without_id]
                         /\ t_rule_id t = None)
    by (exists rule_without_id; split; [right; left|]; reflexivity).
  split.
  - split; [reflexivity|].
    exact (proj1 (@pipeline_short_circuits
                    sample_llm sample_json_loads sample_format_prompt
                    sample_exec sample_format_value sample_import sample_time
                    [] [amount_frame] 0) eq_refl).
  - split; [exact Hm|].
    exact (proj2 (@pipeline_short_circuits
                    sample_llm sample_json_loads sample_format_prompt
                    sample_exec sample_format_value sample_import sample_time
                    [amount_rule; rule_without_id] [amount_frame] 0) Hm).
Defined.

(** X31.  A run of the pipeline that returns has validated nothing: it
    returns only without rule templates, and then with no validation
    results, no plans, no records and the heap as it was.  With templates
    that all have a rule id the run ends with the KeyError of the closing
    format, whatever the interpreter and the services would do. *)
Theorem pipeline_returns_only_without_templates
  (llm : string -> result string) (json_loads : string -> option json)
  (format_prompt : string -> RuleTemplate -> list (dict cell) -> RuleEntry
                   -> result string)
  (py_exec : string -> exec_result) (format_value : json -> string)
  (import_and_validate : string -> string -> DataFrame -> result Results)
  (now : string) (rule_templates : list RuleTemplate)
  (st : store) (data : loc) :
  (forall b,
      run_end_to_end_pipeline llm json_loads format_prompt py_exec
        format_value import_and_validate now rule_templates st data = Ok b ->
      rule_templates = []
      /\ b_validation_results b = None
      /\ b_remediation_plans b = None
      /\ b_remediated_data b = None
      /\ b_applied_remediations b = []
      /\ b_store b = st)
  /\ (rule_templates <> [] ->
      (forall t, In t rule_templates -> t_rule_id t <> None) ->
      run_end_to_end_pipeline llm json_loads format_prompt py_exec
        format_value import_and_validate now rule_templates st data
      = Raise format_error).
Proof.
  split.
  - intros b H. destruct rule_templates as [|t ts].
    + rewrite run_without_templates in H. injection H as <-.
      repeat split.
    + rewrite run_with_templates in H by discriminate. discriminate.
  - intros Hne Hids. rewrite run_with_templates by assumption.
    replace (forallb has_rule_id rule_templates) with true; [reflexivity|].
    symmetry. apply forallb_forall. intros t Ht. unfold has_rule_id.
    specialize (Hids t Ht). now destruct (t_rule_id t).
Qed.

Lemma pipeline_returns_only_without_templates_witness :
  ([amount_rule; status_rule] <> []
   /\ (forall t, In t [amount_rule; status_rule] -> t_rule_id t <> None)
   /\ run_end_to_end_pipeline sample_llm sample_json_loads
        sample_format_prompt sample_exec sample_format_value
        (fun now _ df => Ok (validate_data now [out_of_range_rule] df))
        sample_time [amount_rule; status_rule] [amount_frame] 0
      = Raise format_error)
  /\ (run_end_to_end_pipeline sample_llm sample_json_loads
        sample_format_prompt sample_exec sample_format_value
        (fun now _ df => Ok (validate_data now [out_of_range_rule] df))
        sample_time [] [amount_frame] 0
      = Ok {| b_store := [amount_frame];
              b_remediated_data := None;
              b_validation_results := None;
              b_remediation_plans := None;
              b_applied_remediations := [] |}
      /\ @nil RuleTemplate = []).
Proof.
  assert (Hne : [amount_rule; status_rule] <> []) by discriminate.
  assert (Hids : forall t, In t [amount_rule; status_rule]
                           -> t_rule_id t <> None)
    by (intros t [<-|[<-|[]]]; discriminate).
  split.
  - split; [exact Hne|]. split; [exact Hids|].
    exact (proj2 (@pipeline_returns_only_without_templates
                    sample_llm sample_json_loads sample_format_prompt
                    sample_exec sample_format_value
                    (fun now _ df => Ok (validate_data now [out_of_range_rule] df))
                    sample_time [amount_rule; status_rule] [amount_frame] 0)
             Hne Hids).
  - split; [reflexivity|].
    exact (proj1 (proj1 (@pipeline_returns_only_without_templates
                    sample_llm sample_json_loads sample_format_prompt
                    sample_exec sample_format_value
                    (fun now _ df => Ok (validate_data now [out_of_range_rule] df))
                    sample_time [] [amount_frame] 0) _ eq_refl)).
Defined.



(** ** Splitting and stripping *)

Lemma startswith_app (p s : string) : PyStr.startswith p (p ++ s) = true.
Proof.
  induction p as [|a p IH]; simpl; [reflexivity|].
  now rewrite Ascii.eqb_refl.
Qed.

Lemma contains_app (sep a b : string) :
  PyStr.contains sep (a ++ sep ++ b) = true.
Proof.
  induction a as [|c a IH]; simpl.
  - destruct sep as [|x sep]; simpl.
    + destruct b; reflexivity.
    + now rewrite Ascii.eqb_refl, startswith_app.
  - rewrite IH. apply orb_true_r.
Qed.

Lemma split_go_skip (sep x b : string) :
  PyStr.split_go sep (x ++ b) (String.length x) = PyStr.split_go sep b 0.
Proof.
  induction x as [|d x IH]; simpl; [|exact IH].
  destruct b; reflexivity.
Qed.

Lemma free_of_app (c : ascii) (a b : string) :
  free_of c (a ++ b) = free_of c a && free_of c b.
Proof.
  induction a as [|d a IH]; simpl; [reflexivity|].
  now rewrite IH, andb_assoc.
Qed.

(** Splitting at the first separator, when the text before it holds no
    first character of the separator. *)
Lemma split_first (c : ascii) (sep' a b : string) :
  free_of c a = true ->
  PyStr.split (String c sep') (a ++ String c sep' ++ b)
  = a :: PyStr.split (String c sep') b.
Proof.
  intros Ha. unfold PyStr.split.
  assert (E : PyStr.split_go (String c sep') (a ++ String c sep' ++ b) 0
              = (a, let (p, ps) := PyStr.split_go (String c sep') b 0 in
                    p :: ps)).
  { induction a as [|d a IH].
    - cbn [append PyStr.split_go].
      change (String c (sep' ++ b)) with (String c sep' ++ b).
      rewrite startswith_app.
      cbn [String.length Nat.sub]. rewrite Nat.sub_0_r.
      now rewrite split_go_skip.
    - simpl in Ha. apply andb_true_iff in Ha as (Hd & Ha).
      change (String d a ++ String c sep' ++ b)
        with (String d (a ++ String c sep' ++ b)).
      cbn [PyStr.split_go PyStr.startswith].
      rewrite Ascii.eqb_sym. apply negb_true_iff in Hd. rewrite Hd.
      cbn [andb]. now rewrite (IH Ha). }
  rewrite E. reflexivity.
Qed.

Lemma split_none (c : ascii) (sep' b : string) :
  free_of c b = true -> PyStr.split (String c sep') b = [b].
Proof.
  intros Hb. unfold PyStr.split.
  assert (E : PyStr.split_go (String c sep') b 0 = (b, [])).
  { induction b as [|d b IH]; [reflexivity|].
    simpl in Hb. apply andb_true_iff in Hb as (Hd & Hb).
    cbn [PyStr.split_go PyStr.startswith].
    rewrite Ascii.eqb_sym. apply negb_true_iff in Hd. rewrite Hd.
    cbn [andb]. now rewrite (IH Hb). }
  now rewrite E.
Qed.

Lemma lstrip_length (s : string) :
  (String.length (PyStr.lstrip s) <= String.length s)%nat.
Proof.
  induction s as [|c s IH]; simpl; [lia|].
  destruct (PyStr.is_space c); simpl; lia.
Qed.

Lemma rstrip_app_space (x : string) :
  PyStr.rstrip (x ++ " ") = PyStr.rstrip x.
Proof.
  induction x as [|c x IH]; [reflexivity|].
  cbn [append PyStr.rstrip]. now rewrite IH.
Qed.

Lemma strip_padded (x : string) :
  tight x ->
  PyStr.strip (" " ++ x ++ " ") = x /\ PyStr.strip (" " ++ x) = x.
Proof.
  intros (Hne & Hl & Hr). unfold PyStr.strip.
  destruct x as [|c x]; [congruence|].
  assert (Hc : PyStr.is_space c = false).
  { destruct (PyStr.is_space c) eqn:E; [|reflexivity].
    simpl in Hl. rewrite E in Hl. pose proof (lstrip_length x) as Hlen.
    rewrite Hl in Hlen. simpl in Hlen. lia. }
  split.
  - change (" " ++ String c x ++ " ") with (String " " (String c (x ++ " "))).
    cbn [PyStr.lstrip]. change (PyStr.is_space " ") with true. cbn iota.
    rewrite Hc.
    change (String c (x ++ " ")) with (String c x ++ " ").
    now rewrite rstrip_app_space.
  - change (" " ++ String c x) with (String " " (String c x)).
    cbn [PyStr.lstrip]. change (PyStr.is_space " ") with true. cbn iota.
    now rewrite Hc.
Qed.

Lemma append_assoc (a b c : string) : (a ++ b) ++ c = a ++ (b ++ c).
Proof.
  induction a as [|x a IH]; simpl; [reflexivity | now rewrite IH].
Qed.

Lemma contains_free (c : ascii) (sep' s : string) :
  free_of c s = true -> PyStr.contains (String c sep') s = false.
Proof.
  induction s as [|d s IH]; simpl; [reflexivity|].
  intros H. apply andb_true_iff in H as (Hd & Hs).
  rewrite (IH Hs), Ascii.eqb_sym. apply negb_true_iff in Hd. now rewrite Hd.
Qed.

(** ** Discovered rules through the compile loop *)

(** X25.  A correlation rule appended by [discover_rules_from_data] has the
    type "correlation_check", which the compile loop does not know: no
    block is emitted for it, and the loop and the call end as if the rule
    were not there, so a discovered correlation is never validated. *)
Theorem discovered_correlation_rules_are_never_compiled
  (col1 col2 corr_2f : string) (pre post : list RuleTemplate) :
  compile_rule (auto_correlation_rule col1 col2 corr_2f) = Ok None
  /\ emits_block (auto_correlation_rule col1 col2 corr_2f) = false
  /\ generate_pandas_validation
       (pre ++ auto_correlation_rule col1 col2 corr_2f :: post)
     = generate_pandas_validation (pre ++ post)
  /\ emit_blocks (pre ++ auto_correlation_rule col1 col2 corr_2f :: post)
     = emit_blocks (pre ++ post).
Proof.
  assert (H : compile_rule (auto_correlation_rule col1 col2 corr_2f) = Ok None)
    by reflexivity.
  split; [exact H|]. split; [reflexivity|].
  split; [now apply generate_skips | now apply emit_blocks_skips].
Qed.

(** X26.  A range rule appended by [discover_rules_from_data], whose logic
    is formatted as [col >= lower AND col <= upper], compiles to a range
    check of [col] with exactly the two bound texts, provided the column
    name holds no [<] or [>], the bound texts hold none either, the lower
    one holds no [A], and both are non-empty without surrounding blanks. *)
Theorem discovered_range_rule_compiles_to_its_bounds
  (col lower_bound upper_bound lower_2f upper_2f : string) :
  free_of ">" col = true -> free_of "<" col = true ->
  free_of ">" lower_bound = true -> free_of "<" lower_bound = true ->
  free_of "A" lower_bound = true -> tight lower_bound ->
  free_of ">" upper_bound = true -> free_of "<" upper_bound = true ->
  tight upper_bound ->
  exists d,
    compile_rule (auto_range_rule col lower_bound upper_bound
                    lower_2f upper_2f) = Ok (Some d)
    /\ d_rule_id d = "auto_range_" ++ col
    /\ d_severity d = "warning"
    /\ d_check d = RangeCheck col lower_bound upper_bound.
Proof.
  intros Hgc Hlc Hgl Hll Hal Htl Hgu Hlu Htu.
  set (logic := col ++ " >= " ++ lower_bound ++ " AND "
                ++ col ++ " <= " ++ upper_bound).
  assert (E1 : logic = (col ++ " ") ++ ">="
                       ++ (" " ++ lower_bound ++ " AND "
                           ++ col ++ " <= " ++ upper_bound))
    by (unfold logic; now rewrite append_assoc).
  assert (E2 : " " ++ lower_bound ++ " AND " ++ col ++ " <= " ++ upper_bound
               = (" " ++ lower_bound ++ " ") ++ "AND"
                 ++ (" " ++ col ++ " <= " ++ upper_bound))
    by (now rewrite !append_assoc).
  assert (E3 : logic = (col ++ " >= " ++ lower_bound ++ " AND " ++ col ++ " ")
                       ++ "<=" ++ (" " ++ upper_bound))
    by (unfold logic; now rewrite !append_assoc).
  assert (Hlower : PyStr.strip
                     (item (PyStr.split "AND" (item (PyStr.split ">=" logic) 1))
                           0) = lower_bound).
  { rewrite E1, split_first by (rewrite free_of_app, Hgc; reflexivity).
    rewrite (@split_none ">" "=" _)
      by (rewrite !free_of_app, Hgl, Hgc, Hgu; reflexivity).
    unfold item at 2. cbn [nth].
    rewrite E2, split_first by (rewrite !free_of_app, Hal; reflexivity).
    unfold item. cbn [nth]. now apply strip_padded. }
  assert (Hupper : PyStr.strip (item (PyStr.split "<=" logic) 1)
                   = upper_bound).
  { rewrite E3, split_first
      by (rewrite !free_of_app, Hlc, Hll; reflexivity).
    rewrite (@split_none "<" "=" _) by (rewrite free_of_app, Hlu; reflexivity).
    unfold item. cbn [nth]. now apply strip_padded. }
  assert (Hge : PyStr.contains ">=" logic = true)
    by (rewrite E1; apply contains_app).
  assert (Hle : PyStr.contains "<=" logic = true)
    by (rewrite E3; apply contains_app).
  unfold compile_rule, auto_range_rule.
  cbn [t_rule_id t_type t_elements t_logic t_description t_severity get].
  fold logic. rewrite Hge, Hle, Hlower, Hupper.
  eexists. split; [reflexivity|]. repeat split.
Qed.

Lemma discovered_range_rule_compiles_to_its_bounds_witness :
  tight "-10.5" /\ tight "30.25"
  /\ exists d,
       compile_rule (auto_range_rule "amount" "-10.5" "30.25" "-10.50" "30.25")
       = Ok (Some d)
       /\ d_rule_id d = "auto_range_amount"
       /\ d_severity d = "warning"
       /\ d_check d = RangeCheck "amount" "-10.5" "30.25".
Proof.
  assert (H1 : tight "-10.5") by (repeat split; discriminate).
  assert (H2 : tight "30.25") by (repeat split; discriminate).
  split; [exact H1 | split; [exact H2|]].
  exact (@discovered_range_rule_compiles_to_its_bounds
           "amount" "-10.5" "30.25" "-10.50" "30.25"
           eq_refl eq_refl eq_refl eq_refl eq_refl H1 eq_refl eq_refl H2).
Defined.

(** X27.  A categorical rule appended by [discover_rules_from_data], whose
    logic is formatted as [col IN values], compiles to a categorical check
    of [col] with exactly the value-list text, provided neither the column
    name nor the list text holds an [I] and the list text is non-empty
    without surrounding blanks. *)
Theorem discovered_categorical_rule_compiles_to_its_values
  (col common_values joined : string) :
  free_of "I" col = true ->
  free_of "I" common_values = true ->
  tight common_values ->
  exists d,
    compile_rule (auto_categorical_rule col common_values joined)
    = Ok (Some d)
    /\ d_rule_id d = "auto_categorical_" ++ col
    /\ d_severity d = "warning"
    /\ d_check d = CategoricalCheck col common_values.
Proof.
  intros Hc Hv Ht.
  set (logic := col ++ " IN " ++ common_values).
  assert (E : logic = (col ++ " ") ++ "IN" ++ (" " ++ common_values))
    by (unfold logic; now rewrite append_assoc).
  assert (Hvalues : PyStr.strip (item (PyStr.split "IN" logic) 1)
                    = common_values).
  { rewrite E, split_first by (rewrite free_of_app, Hc; reflexivity).
    rewrite (@split_none "I" "N" _) by (rewrite free_of_app, Hv; reflexivity).
    unfold item. cbn [nth]. now apply strip_padded. }
  assert (Hin : PyStr.contains "IN" logic = true)
    by (rewrite E; apply contains_app).
  unfold compile_rule, auto_categorical_rule.
  cbn [t_rule_id t_type t_elements t_logic t_description t_severity get].
  fold logic.
  change ("categorical_check" =? "range_check") with false. cbn iota.
  change ("categorical_check" =? "categorical_check") with true. cbn iota.
  rewrite Hin, Hvalues.
  eexists. split; [reflexivity|]. repeat split.
Qed.

Lemma discovered_categorical_rule_compiles_to_its_values_witness :
  tight "['A', 'B']"
  /\ exists d,
       compile_rule (auto_categorical_rule "status" "['A', 'B']" "A, B")
       = Ok (Some d)
       /\ d_rule_id d = "auto_categorical_status"
       /\ d_severity d = "warning"
       /\ d_check d = CategoricalCheck "status" "['A', 'B']".
Proof.
  assert (H : tight "['A', 'B']") by (repeat split; discriminate).
  split; [exact H|].
  exact (@discovered_categorical_rule_compiles_to_its_values
           "status" "['A', 'B']" "A, B" eq_refl eq_refl H).
Defined.

Example column_name_holding_IN_breaks_the_value_list :
  option_map d_check
    (match compile_rule (auto_categorical_rule "INCOME" "['LOW', 'HIGH']"
                           "LOW, HIGH") with
     | Ok b => b
     | Raise _ => None
     end)
  = Some (CategoricalCheck "INCOME" "COME").
Proof. reflexivity. Qed.

(** ** The fence around a service response *)

(** X28.  From a response that holds a fenced block, [unfence] takes the
    text between the first two fences and ignores everything before and
    after: stripped of the leading [json] tag and of surrounding blanks
    when the block starts with that tag, and as it stands otherwise.  A
    response without a backtick is left as it is. *)
Theorem unfence_takes_the_first_fenced_block (pre body tail : string) :
  free_of "`" pre = true ->
  free_of "`" body = true ->
  unfence (pre ++ "```json" ++ body ++ "```" ++ tail) = PyStr.strip body
  /\ (PyStr.startswith "json" body = false ->
      unfence (pre ++ "```" ++ body ++ "```" ++ tail) = body)
  /\ unfence body = body.
Proof.
  intros Hp Hb.
  assert (Hfirst : forall block,
             free_of "`" block = true ->
             PyStr.contains "```" (pre ++ "```" ++ block ++ "```" ++ tail)
             = true
             /\ item (PyStr.split "```"
                        (pre ++ "```" ++ block ++ "```" ++ tail)) 1
                = block).
  { intros block Hblock. split; [apply contains_app|].
    rewrite split_first by assumption.
    rewrite split_first by assumption. reflexivity. }
  split; [|split].
  - destruct (Hfirst ("json" ++ body)) as (Hc & Hi);
      [now rewrite free_of_app, Hb|].
    unfold unfence.
    change (pre ++ "```json" ++ body ++ "```" ++ tail)
      with (pre ++ "```" ++ ("json" ++ body) ++ "```" ++ tail).
    rewrite Hc, Hi. reflexivity.
  - intros Hj. destruct (Hfirst body Hb) as (Hc & Hi).
    unfold unfence. now rewrite Hc, Hi, Hj.
  - unfold unfence. now rewrite contains_free.
Qed.

Lemma unfence_takes_the_first_fenced_block_witness :
  free_of "`" "Here is the plan: " = true
  /\ free_of "`" " {} " = true
  /\ unfence ("Here is the plan: " ++ "```json" ++ " {} " ++ "```"
              ++ " Good luck.")
     = "{}".
Proof.
  split; [reflexivity | split; [reflexivity|]].
  exact (proj1 (@unfence_takes_the_first_fenced_block
                  "Here is the plan: " " {} " " Good luck."
                  eq_refl eq_refl)).
Defined.

(** ** The Great Expectations suite against the pandas compile loop *)

Section SuiteFacts.
Variable F : Type.
Variable neg_inf pos_inf : F.
Variable py_float : string -> option F.
Variable json_loads : string -> option json.

Lemma suite_step_emits (t : RuleTemplate) (x : Expectation F) :
  suite_step neg_inf pos_inf py_float json_loads t = Ok (Some x) ->
  emits_block t = true.
Proof.
  unfold suite_step, emits_block.
  destruct (get (t_elements t) []) as [|p rest]; [discriminate|].
  cbn [is_empty negb andb].
  destruct (get (t_type t) "" =? "range_check"); [reflexivity|].
  destruct (get (t_type t) "" =? "categorical_check"); [reflexivity|].
  destruct (get (t_type t) "" =? "not_null_check"); [reflexivity|].
  discriminate.
Qed.

Lemma added_expectations_length (rule_templates : list RuleTemplate) :
  forall es,
    added_expectations neg_inf pos_inf py_float json_loads rule_templates
    = Ok es ->
    (List.length es <= List.length (filter emits_block rule_templates))%nat.
Proof.
  induction rule_templates as [|t ts IH]; simpl; intros es H.
  - injection H as <-. simpl. lia.
  - destruct (suite_step neg_inf pos_inf py_float json_loads t) as [[x|]|e]
      eqn:Hs; [| |discriminate]; cbn [bind] in H;
      (destruct (added_expectations neg_inf pos_inf py_float json_loads ts)
         as [es'|e]; [|discriminate]); cbn [bind] in H; injection H as <-;
      specialize (IH es' eq_refl).
    + rewrite (suite_step_emits _ Hs). simpl. lia.
    + destruct (emits_block t); simpl; lia.
Qed.

Lemma suite_step_unparsable (t : RuleTemplate) :
  unparsable_range py_float t ->
  exists e, suite_step neg_inf pos_inf py_float json_loads t = Raise e.
Proof.
  unfold unparsable_range, suite_step, to_float.
  intros (Hty & Hel & Hbad). rewrite Hty.
  destruct (get (t_elements t) []) as [|p rest]; [congruence|].
  change ("range_check" =? "range_check") with true. cbn iota.
  cbv zeta in Hbad. destruct Hbad as [(Hc & Hf)|(Hc & Hf)].
  - rewrite Hc, Hf. cbn [bind]. now eexists.
  - rewrite Hc, Hf.
    destruct (if PyStr.contains ">=" (get (t_logic t) "") then _ else _)
      as [lo|e]; cbn [bind]; now eexists.
Qed.

Lemma added_expectations_unparsable (rule_templates : list RuleTemplate) :
  (exists t, In t rule_templates /\ unparsable_range py_float t) ->
  exists e,
    added_expectations neg_inf pos_inf py_float json_loads rule_templates
    = Raise e.
Proof.
  induction rule_templates as [|a ts IH]; intros (t & Hin & Hbad);
    [destruct Hin|].
  simpl. destruct Hin as [<-|Hin].
  - destruct (@suite_step_unparsable a Hbad) as (e & ->). now eexists.
  - destruct (suite_step neg_inf pos_inf py_float json_loads a) as [x|e];
      [|now eexists].
    cbn [bind]. destruct IH as (e & ->); [now exists t|]. now eexists.
Qed.

End SuiteFacts.

(** X29.  The suite builder never adds more expectations than the pandas
    compile loop appends blocks for the same templates: an expectation is
    added only for a template the loop compiles, while cross-field rules
    and categorical rules without [IN] get a block and no expectation. *)
Theorem suite_has_no_more_expectations_than_compiled_rules
  (F : Type) (neg_inf pos_inf : F) (py_float : string -> option F)
  (json_loads : string -> option json)
  (rule_templates : list RuleTemplate) (es : list (Expectation F)) :
  added_expectations neg_inf pos_inf py_float json_loads rule_templates
  = Ok es ->
  (List.length es <= List.length (filter emits_block rule_templates))%nat
  /\ (forall rules_code,
         emit_blocks rule_templates = Ok rules_code ->
         (List.length es <= List.length rules_code)%nat).
Proof.
  intros Hs.
  pose proof (added_expectations_length neg_inf pos_inf py_float json_loads
                _ Hs) as Hl.
  split; [exact Hl|]. intros code Hg.
  pose proof (emit_blocks_emitted _ Hg) as He.
  apply (f_equal (@List.length _)) in He. unfold emitted in He.
  rewrite !length_map in He. now rewrite He.
Qed.

Lemma suite_has_no_more_expectations_than_compiled_rules_witness :
  added_expectations (-1000)%Z 1000%Z sample_float sample_json_loads
    [amount_rule; status_rule_without_set; cross_rule]
  = Ok [ExpectBetween "amount" 10%Z 20%Z]
  /\ filter emits_block [amount_rule; status_rule_without_set; cross_rule]
     = [amount_rule; status_rule_without_set; cross_rule]
  /\ (exists rules_code,
         emit_blocks [amount_rule; status_rule_without_set; cross_rule]
         = Ok rules_code
         /\ List.length rules_code = 3)
  /\ (1 <= 3)%nat.
Proof.
  split; [reflexivity | split; [reflexivity|]].
  split; [eexists; split; reflexivity|].
  exact (proj1 (@suite_has_no_more_expectations_than_compiled_rules
                  Z (-1000)%Z 1000%Z sample_float sample_json_loads
                  [amount_rule; status_rule_without_set; cross_rule]
                  [ExpectBetween "amount" 10%Z 20%Z] eq_refl)).
Defined.

(** X30.  One range rule with a bound text that [float] rejects makes the
    whole suite construction raise: no expectation of any other template
    is kept.  The pandas compile loop, which splices the same text
    unparsed, does not raise on it. *)
Theorem unparsable_bound_aborts_the_whole_suite
  (F : Type) (neg_inf pos_inf : F) (py_float : string -> option F)
  (json_loads : string -> option json)
  (rule_templates : list RuleTemplate) (t : RuleTemplate) (id : string) :
  In t rule_templates ->
  unparsable_range py_float t ->
  t_rule_id t = Some id ->
  (exists e,
      added_expectations neg_inf pos_inf py_float json_loads rule_templates
      = Raise e)
  /\ exists d, compile_rule t = Ok (Some d).
Proof.
  intros Hin Hbad Hid. split.
  - apply added_expectations_unparsable. now exists t.
  - pose proof (compile_rule_cases t) as Hc. rewrite Hid in Hc.
    assert (Hem : emits_block t = true).
    { unfold emits_block. destruct Hbad as (-> & Hel & _).
      destruct (get (t_elements t) []); [congruence | reflexivity]. }
    rewrite Hem in Hc. destruct Hc as (d & Hd & _). now exists d.
Qed.

Lemma unparsable_bound_aborts_the_whole_suite_witness :
  In (template "R9" "range_check" ["amount"] "amount >= ten")
     [not_null_rule; template "R9" "range_check" ["amount"] "amount >= ten"]
  /\ unparsable_range sample_float
       (template "R9" "range_check" ["amount"] "amount >= ten")
  /\ t_rule_id (template "R9" "range_check" ["amount"] "amount >= ten")
     = Some "R9"
  /\ (exists e,
         added_expectations (-1000)%Z 1000%Z sample_float sample_json_loads
           [not_null_rule;
            template "R9" "range_check" ["amount"] "amount >= ten"]
         = Raise e)
  /\ exists d,
       compile_rule (template "R9" "range_check" ["amount"] "amount >= ten")
       = Ok (Some d).
Proof.
  assert (Hin : In (template "R9" "range_check" ["amount"] "amount >= ten")
                   [not_null_rule;
                    template "R9" "range_check" ["amount"] "amount >= ten"])
    by (right; left; reflexivity).
  assert (Hbad : unparsable_range sample_float
                   (template "R9" "range_check" ["amount"] "amount >= ten")).
  { split; [reflexivity|]. split; [discriminate|]. left. split; reflexivity. }
  split; [exact Hin | split; [exact Hbad | split; [reflexivity|]]].
  exact (@unparsable_bound_aborts_the_whole_suite
           Z (-1000)%Z 1000%Z sample_float sample_json_loads
           [not_null_rule;
            template "R9" "range_check" ["amount"] "amount >= ten"]
           (template "R9" "range_check" ["amount"] "amount >= ten") "R9"
           Hin Hbad eq_refl).
Defined.

Example unparsable_bound_raises_ValueError :
  added_expectations (-1000)%Z 1000%Z sample_float sample_json_loads
    [not_null_rule; template "R9" "range_check" ["amount"] "amount >= ten"]
  = Raise (Exn "ValueError" "could not convert string to float: 'ten'").
Proof. reflexivity. Qed.
